(** * Retrieval engine of the song RAG pipeline

    A shallow embedding of [src/rag/vector_db.py] (class [DongyoVectorDB]) and
    [src/rag/agents/retriever_agent.py] (class [RetrieverAgent]).

    Modelling conventions.
    - A Python [str] is a list of Unicode code points.  Case folding
      ([str.lower]), the white-space class used by [str.strip] and the word
      class [\w] of the [re] module are tables of the Python runtime; they are
      the fields of the class [Unicode] below.
    - A Python [int] is a [Z].  A Python [float] is idealised as a rational
      ([Q]): the arithmetic is exact, and a division by zero raises
      [ZeroDivisionError] as it does in Python.
    - A Python [dict] is an association list in insertion order, because
      [Counter.most_common] and [sorted] are stable and therefore observe that
      order.
    - Exceptions are values of the error monad [res].
    - The embedding client and the FAISS index are external services; they are
      the fields [client] and [index_search] of the objects that own them.
      [ServiceError] stands for their failures, and [AssertionError] is the
      exception of FAISS's own argument check ([assert k > 0] in
      [index.search]). *)

From Stdlib Require Import String Ascii.
From Stdlib Require Import List ZArith QArith Bool Lia Lqa Permutation Sorted.
Import ListNotations.
Open Scope Z_scope.

(** ** Exceptions *)

Inductive exn : Type :=
| ZeroDivisionError
| IndexError
| AssertionError
| ServiceError.

Inductive res (A : Type) : Type :=
| Ok (a : A)
| Raise (e : exn).

Arguments Ok {A} a.
Arguments Raise {A} e.

Definition bind {A B : Type} (m : res A) (f : A -> res B) : res B :=
  match m with
  | Ok a => f a
  | Raise e => Raise e
  end.

Notation "x <- m ;; k" := (bind m (fun x => k))
  (at level 61, m at next level, right associativity).

(** ** Python lists *)

Definition len {A : Type} (l : list A) : Z := Z.of_nat (length l).

(** [l[:k]]: a negative bound counts from the end. *)
Definition py_slice_to {A : Type} (l : list A) (k : Z) : list A :=
  if 0 <=? k then firstn (Z.to_nat k) l
  else firstn (length l - Z.to_nat (- k)) l.

(** [l[i]]: a negative subscript counts from the end, and a subscript outside
    [-len(l) .. len(l)-1] raises [IndexError]. *)
Definition py_getitem {A : Type} (l : list A) (i : Z) : res A :=
  let j := if i <? 0 then i + len l else i in
  if j <? 0 then Raise IndexError
  else match nth_error l (Z.to_nat j) with
       | Some a => Ok a
       | None => Raise IndexError
       end.

(** [enumerate(l)] *)
Fixpoint enumerate_from {A : Type} (i : Z) (l : list A) : list (Z * A) :=
  match l with
  | [] => []
  | a :: l' => (i, a) :: enumerate_from (i + 1) l'
  end.

Definition enumerate {A : Type} (l : list A) : list (Z * A) :=
  enumerate_from 0 l.

(** ** [sorted]

    Python's sort is stable and compares keys with [<] only.  [lt a b] stands
    for [key(a) < key(b)]; with [reverse=True] the caller passes the flipped
    comparison, which keeps equal keys in their original order as Python
    does. *)
Section Sort.
Context {A : Type} (lt : A -> A -> bool).

Fixpoint insert (x : A) (l : list A) : list A :=
  match l with
  | [] => [x]
  | y :: l' => if lt y x then y :: insert x l' else x :: y :: l'
  end.

Definition sorted (l : list A) : list A := fold_right insert [] l.
End Sort.

Definition Qltb (x y : Q) : bool := negb (Qle_bool y x).

(** ** Insertion-ordered dictionaries *)
Section Dict.
Context {K V : Type} (eqb : K -> K -> bool).

Definition dict : Type := list (K * V).

Fixpoint dict_get (d : dict) (k : K) : option V :=
  match d with
  | [] => None
  | (k', v) :: d' => if eqb k k' then Some v else dict_get d' k
  end.

(** [d[k] = v]: an existing key keeps its position, a new key goes last. *)
Fixpoint dict_set (d : dict) (k : K) (v : V) : dict :=
  match d with
  | [] => [(k, v)]
  | (k', v') :: d' =>
      if eqb k k' then (k', v) :: d' else (k', v') :: dict_set d' k v
  end.

Definition dict_values (d : dict) : list V := map snd d.
Definition dict_keys (d : dict) : list K := map fst d.
End Dict.

Arguments dict K V : clear implicits.

(** ** Strings *)

Definition char : Type := N.
Definition str : Type := list char.

Fixpoint str_eqb (a b : str) : bool :=
  match a, b with
  | [], [] => true
  | x :: a', y :: b' => N.eqb x y && str_eqb a' b'
  | _, _ => false
  end.

Fixpoint startswith (s p : str) : bool :=
  match p, s with
  | [], _ => true
  | x :: p', y :: s' => N.eqb x y && startswith s' p'
  | _ :: _, [] => false
  end.

(** [p in s] *)
Fixpoint contains (s p : str) : bool :=
  startswith s p ||
  match s with
  | [] => false
  | _ :: s' => contains s' p
  end.

(** A string literal of the source, for code points below 256. *)
Definition lit (s : string) : str := map N_of_ascii (list_ascii_of_string s).

Definition space : str := [32%N].

(** [f"{x}"] of a value that is a string or [None]. *)
Definition fmt (o : option str) : str :=
  match o with
  | Some s => s
  | None => lit "None"
  end.

(** [str(x) if x else ""] of a value that is a string or [None]. *)
Definition str_or_empty (o : option str) : str :=
  match o with
  | Some s => s
  | None => []
  end.

Class Unicode : Type := {
  lower : str -> str;
  is_space : char -> bool;
  is_word : char -> bool
}.

Section Text.
Context `{Unicode}.

Fixpoint lstrip (s : str) : str :=
  match s with
  | [] => []
  | c :: s' => if is_space c then lstrip s' else s
  end.

Definition strip (s : str) : str := rev (lstrip (rev (lstrip s))).

(** [re.findall(r'\b\w+\b', s)]: the maximal runs of word characters, from
    left to right.  [cur] is the run being read, in reverse. *)
Fixpoint findall_words_from (cur : str) (s : str) : list str :=
  match s with
  | [] => match cur with [] => [] | _ :: _ => [rev cur] end
  | c :: s' =>
      if is_word c then findall_words_from (c :: cur) s'
      else match cur with
           | [] => findall_words_from [] s'
           | _ :: _ => rev cur :: findall_words_from [] s'
           end
  end.

Definition findall_words (s : str) : list str := findall_words_from [] s.
End Text.

(** ** Arithmetic that can raise *)

(** [x / y] on floats. *)
Definition float_div (x y : Q) : res Q :=
  if Qeq_bool y 0 then Raise ZeroDivisionError else Ok (x / y)%Q.

(** [a / b] on integers (true division). *)
Definition int_truediv (a b : Z) : res Q :=
  if b =? 0 then Raise ZeroDivisionError else Ok (inject_Z a / inject_Z b)%Q.

(** * Data model *)

(** One entry of the list-shaped metadata.  For a dict the three fields are
    [meta.get("제목")], [meta.get("가사 특징 요약")] and [meta.get("가사")]
    ([None] when the key is missing); any other value reads as three empty
    strings. *)
Inductive song_meta : Type :=
| SongDict (title_ feature_ lyrics_ : option str)
| SongOther.

Definition meta_title (m : song_meta) : option str :=
  match m with SongDict t _ _ => t | SongOther => Some [] end.
Definition meta_feature (m : song_meta) : option str :=
  match m with SongDict _ f _ => f | SongOther => Some [] end.
Definition meta_lyrics (m : song_meta) : option str :=
  match m with SongDict _ _ l => l | SongOther => Some [] end.

(** The unpickled metadata: either a dict of parallel columns ["titles"] and
    ["lyrics"], or a list of entries. *)
Inductive metadata_t : Type :=
| MetaColumns (titles lyrics_list : list str)
| MetaRecords (songs : list song_meta).

(** [song_count] of [_load_data]. *)
Definition song_count (md : metadata_t) : Z :=
  match md with
  | MetaColumns titles _ => len titles
  | MetaRecords songs => len songs
  end.

(** A search result (a Python dict with these keys).  ["keyword_score"] is
    only set by keyword search and ["combined_score"] only by fusion. *)
Record result : Type := {
  index : Z;
  distance : Q;
  keyword_score : option Z;
  title : str;
  feature_summary : str;
  lyrics : str;
  combined_score : option Q
}.

Definition with_combined_score (r : result) (s : Q) : result :=
  {| index := index r; distance := distance r;
     keyword_score := keyword_score r; title := title r;
     feature_summary := feature_summary r; lyrics := lyrics r;
     combined_score := Some s |}.

(** [x.get('combined_score', 0.0)] *)
Definition get_combined_score (r : result) : Q :=
  match combined_score r with Some s => s | None => 0%Q end.

(** [result.get('keyword_score', 0)] *)
Definition get_keyword_score (r : result) : Z :=
  match keyword_score r with Some s => s | None => 0 end.

Record DongyoVectorDB : Type := {
  metadata : metadata_t;
  (** [self.index.search(query_embedding, top_k)]: the distances and labels
      of the single query row, paired up. *)
  index_search : list Q -> Z -> res (list (Q * Z));
  keyword_index : dict str (list Z);
  song_texts : list str
}.

Definition truthy {A : Type} (l : list A) : bool :=
  match l with [] => false | _ :: _ => true end.

Section VectorDB.
Context `{Unicode}.

(** ** [_build_keyword_index] *)

Definition build_song_texts (md : metadata_t) : list str :=
  match md with
  | MetaColumns titles lyrics_list =>
      map (fun '(i, t) =>
             lower (t ++ space ++ nth (Z.to_nat i) lyrics_list []))
          (enumerate titles)
  | MetaRecords songs =>
      map (fun m =>
             lower (fmt (meta_title m) ++ space ++ fmt (meta_feature m)
                      ++ space ++ fmt (meta_lyrics m)))
          songs
  end.

(** The body of the inner loop, for one [word] of song [i]. *)
Definition index_word (i : Z) (kidx : dict str (list Z)) (word : str)
  : dict str (list Z) :=
  if 2 <=? len word then
    let kidx1 :=
      match dict_get str_eqb kidx word with
      | None => dict_set str_eqb kidx word []
      | Some _ => kidx
      end in
    let posting :=
      match dict_get str_eqb kidx1 word with
      | Some p => p
      | None => []
      end in
    if existsb (Z.eqb i) posting then kidx1
    else dict_set str_eqb kidx1 word (posting ++ [i])
  else kidx.

Definition build_keyword_index (texts : list str) : dict str (list Z) :=
  fold_left
    (fun kidx '(i, text) => fold_left (index_word i) (findall_words text) kidx)
    (enumerate texts) [].

(** [__init__]: load the data, then build the keyword index. *)
Definition DongyoVectorDB_init
    (md : metadata_t) (search : list Q -> Z -> res (list (Q * Z)))
  : DongyoVectorDB :=
  let texts := build_song_texts md in
  {| metadata := md; index_search := search;
     keyword_index := build_keyword_index texts; song_texts := texts |}.

(** The metadata lookup that [search_similar] and [search_by_keywords] both
    spell out: [None] is the [continue] branch, and the result is the triple
    (title, feature_summary, lyrics) as stored in the result dict. *)
Definition lookup_song (md : metadata_t) (idx : Z)
  : res (option (str * str * str)) :=
  match md with
  | MetaColumns titles lyrics_list =>
      if idx <? len titles then
        t <- py_getitem titles idx ;;
        l <- (if idx <? len lyrics_list then py_getitem lyrics_list idx
              else Ok []) ;;
        Ok (Some (t, [], l))
      else Ok None
  | MetaRecords songs =>
      if idx <? len songs then
        m <- py_getitem songs idx ;;
        Ok (Some (str_or_empty (meta_title m),
                  str_or_empty (meta_feature m),
                  str_or_empty (meta_lyrics m)))
      else Ok None
  end.

(** ** [search_similar] *)

Fixpoint search_similar_loop (md : metadata_t) (raw : list (Q * Z))
  : res (list result) :=
  match raw with
  | [] => Ok []
  | (d, idx) :: raw' =>
      o <- lookup_song md idx ;;
      rest <- search_similar_loop md raw' ;;
      Ok (match o with
          | Some (t, f, l) =>
              {| index := idx; distance := d; keyword_score := None;
                 title := t; feature_summary := f; lyrics := l;
                 combined_score := None |} :: rest
          | None => rest
          end)
  end.

Definition search_similar
    (self : DongyoVectorDB) (query_embedding : list Q) (top_k : Z)
  : res (list result) :=
  raw <- index_search self query_embedding top_k ;;
  search_similar_loop (metadata self) raw.

(** ** [search_by_keywords] *)

(** [scores[song_idx] += 1] on a [Counter]. *)
Definition counter_incr (scores : dict Z Z) (song_idx : Z) : dict Z Z :=
  match dict_get Z.eqb scores song_idx with
  | Some c => dict_set Z.eqb scores song_idx (c + 1)
  | None => dict_set Z.eqb scores song_idx 1
  end.

Definition score_keyword (kidx : dict str (list Z)) (scores : dict Z Z)
    (keyword : str) : dict Z Z :=
  match dict_get str_eqb kidx keyword with
  | Some posting => fold_left counter_incr posting scores
  | None => scores
  end.

Definition score_keywords (kidx : dict str (list Z))
    (keywords_lower : list str) : dict Z Z :=
  fold_left (score_keyword kidx) keywords_lower [].

(** [Counter.most_common(n)], that is [heapq.nlargest(n, items, key=count)]:
    the stable descending sort of the items cut to [n], and nothing when
    [n <= 0]. *)
Definition most_common (scores : dict Z Z) (n : Z) : list (Z * Z) :=
  if n <=? 0 then []
  else firstn (Z.to_nat n) (sorted (fun a b => snd b <? snd a) scores).

(** [scores[idx]] on a [Counter]. *)
Definition counter_get (scores : dict Z Z) (idx : Z) : Z :=
  match dict_get Z.eqb scores idx with
  | Some c => c
  | None => 0
  end.

Fixpoint keyword_results_loop (md : metadata_t) (scores : dict Z Z)
    (indices : list Z) : res (list result) :=
  match indices with
  | [] => Ok []
  | idx :: indices' =>
      let score := counter_get scores idx in
      o <- lookup_song md idx ;;
      match o with
      | Some (t, f, l) =>
          d <- float_div 1 (inject_Z (score + 1)) ;;
          rest <- keyword_results_loop md scores indices' ;;
          Ok ({| index := idx; distance := d; keyword_score := Some score;
                 title := t; feature_summary := f; lyrics := l;
                 combined_score := None |} :: rest)
      | None => keyword_results_loop md scores indices'
      end
  end.

Definition search_by_keywords
    (self : DongyoVectorDB) (keywords : list str) (top_k : Z)
  : res (list result) :=
  if negb (truthy keywords) then Ok []
  else
    let keywords_lower := map lower keywords in
    let scores := score_keywords (keyword_index self) keywords_lower in
    let top_indices := map fst (most_common scores (top_k * 2)) in
    keyword_results_loop (metadata self) scores
      (py_slice_to top_indices top_k).

(** ** [filter_by_categories] *)

Definition searchable_text (r : result) : str :=
  lower (title r ++ space ++ feature_summary r ++ space ++ lyrics r).

Definition category_keywords_of (categories : dict str str) : list str :=
  map (fun kv => lower (snd kv))
      (filter (fun kv => truthy (snd kv) && truthy (strip (snd kv)))
              categories).

Definition matched (category_keywords : list str) (r : result) : bool :=
  existsb (fun keyword => contains (searchable_text r) keyword)
          category_keywords.

Definition filter_by_categories
    (results : list result) (categories : dict str str) : list result :=
  if negb (truthy categories)
     || negb (existsb truthy (dict_values categories))
  then results
  else
    let category_keywords := category_keywords_of categories in
    if negb (truthy category_keywords) then results
    else
      let filtered := filter (matched category_keywords) results in
      if 1 <=? len filtered then filtered else results.
End VectorDB.

(** * The retriever agent *)

Record RetrieverAgent : Type := {
  (** [self.client.embeddings.create(...)] followed by the conversion of the
      answer to an array. *)
  client : str -> res (list Q);
  db : DongyoVectorDB
}.

(** The stop words of [_extract_keywords]; the Korean particles are written
    as code points. *)
Definition stopwords : list str :=
  [ lit "the"; lit "is"; lit "are"; lit "was"; lit "were"; lit "a"; lit "an";
    lit "and"; lit "or"; lit "but"; lit "in"; lit "on"; lit "at"; lit "to";
    lit "for"; lit "of"; lit "with"; lit "by";
    [51060%N]; [44032%N]; [51012%N]; [47484%N]; [50640%N]; [51032%N];
    [50752%N]; [44284%N]; [46020%N]; [47196%N]; [51004%N; 47196%N] ].

Definition weight_vector : Q := 7 # 10.
Definition weight_keyword : Q := 3 # 10.

Section Retriever.
Context `{Unicode}.

Definition _extract_keywords (text : str) : list str :=
  let words := findall_words (lower text) in
  let keywords :=
    filter (fun w => (2 <=? len w) && negb (existsb (str_eqb w) stopwords))
           words in
  py_slice_to keywords 10.

(** The entry [combined[idx]] after the [if idx not in combined] block. *)
Definition ensure_entry (combined : dict Z result) (r : result)
  : dict Z result :=
  match dict_get Z.eqb combined (index r) with
  | None => dict_set Z.eqb combined (index r) (with_combined_score r 0)
  | Some _ => combined
  end.

(** [combined[idx]['combined_score'] = combined[idx].get(...) + score] *)
Definition add_score (combined : dict Z result) (r : result) (score : Q)
  : dict Z result :=
  match dict_get Z.eqb combined (index r) with
  | Some e =>
      dict_set Z.eqb combined (index r)
        (with_combined_score e (get_combined_score e + score))
  | None => combined
  end.

(** The body of the loop over the vector results (weight 0.7). *)
Definition combine_vector (combined : dict Z result) (r : result)
  : res (dict Z result) :=
  let combined1 := ensure_entry combined r in
  q <- float_div 1 (distance r + 1) ;;
  let score := (q * weight_vector)%Q in
  Ok (add_score combined1 r score).

(** The body of the loop over the keyword results (weight 0.3). *)
Definition combine_keyword (combined : dict Z result) (r : result)
  : res (dict Z result) :=
  let combined1 := ensure_entry combined r in
  let ks := get_keyword_score r in
  q <- int_truediv ks (ks + 1) ;;
  let score := (q * weight_keyword)%Q in
  Ok (add_score combined1 r score).

Fixpoint for_each {S A : Type} (body : S -> A -> res S) (l : list A) (s : S)
  : res S :=
  match l with
  | [] => Ok s
  | a :: l' => s' <- body s a ;; for_each body l' s'
  end.

(** The dict [combined] when both loops are done. *)
Definition combined_dict (vector_results keyword_results : list result)
  : res (dict Z result) :=
  c <- for_each combine_vector vector_results [] ;;
  for_each combine_keyword keyword_results c.

Definition _combine_results
    (vector_results keyword_results : list result) (top_k : Z)
  : res (list result) :=
  combined <- combined_dict vector_results keyword_results ;;
  let sorted_results :=
    sorted (fun a b => Qltb (get_combined_score b) (get_combined_score a))
           (dict_values combined) in
  Ok (py_slice_to sorted_results top_k).

Definition retrieve
    (self : RetrieverAgent) (search_query : str) (top_k : Z)
    (categories : option (dict str str)) (use_hybrid : bool)
  : res (list result) :=
  query_embedding <- client self search_query ;;
  vector_results <-
    search_similar (db self) query_embedding
      (if use_hybrid then top_k * 3 else top_k) ;;
  combined_results <-
    (if use_hybrid then
       let keywords := _extract_keywords search_query in
       if truthy keywords then
         keyword_results <-
           search_by_keywords (db self) keywords (top_k * 2) ;;
         _combine_results vector_results keyword_results (top_k * 2)
       else Ok vector_results
     else Ok vector_results) ;;
  let filtered_results :=
    match categories with
    | Some ((_ :: _) as cats) => filter_by_categories combined_results cats
    | _ => combined_results
    end in
  let final_results :=
    py_slice_to
      (sorted (fun a b => Qltb (distance a) (distance b)) filtered_results)
      top_k in
  Ok final_results.
End Retriever.

(** * A concrete runtime for examples

    On code points below 128 the tables agree with Python: [lower] maps
    [A-Z] to [a-z], white space is the code points 9 to 13 and 28 to 32,
    and a word character is a letter, a digit or
    the underscore.  The examples below only use such strings. *)

Definition ascii_lower_char (c : char) : char :=
  if (65 <=? c)%N && (c <=? 90)%N then (c + 32)%N else c.

Definition ascii_is_space (c : char) : bool :=
  ((9 <=? c)%N && (c <=? 13)%N) || ((28 <=? c)%N && (c <=? 32)%N).

Definition ascii_is_word (c : char) : bool :=
  ((48 <=? c)%N && (c <=? 57)%N) || ((65 <=? c)%N && (c <=? 90)%N)
  || ((97 <=? c)%N && (c <=? 122)%N) || (c =? 95)%N.

#[export] Instance ascii_unicode : Unicode := {|
  lower := map ascii_lower_char;
  is_space := ascii_is_space;
  is_word := ascii_is_word
|}.

(** * Specification-side definitions *)

(** [a] occurs before [b] in [l]. *)
Definition precedes {A : Type} (l : list A) (a b : A) : Prop :=
  exists l1 l2 l3, l = l1 ++ a :: l2 ++ b :: l3.

(** The category filter as the specification words it: the patterns are the
    lower-cased non-empty category values, and a candidate passes when its
    searchable text contains one of them. *)
Definition spec_category_filter `{Unicode}
    (results : list result) (categories : dict str str) : list result :=
  filter
    (fun r =>
       existsb (fun pattern => contains (searchable_text r) pattern)
               (map lower (filter truthy (dict_values categories))))
    results.

(** [posting_contains kidx keyword idx]: the posting list of [keyword]
    contains the document [idx]. *)
Definition posting_contains (kidx : dict str (list Z)) (keyword : str)
    (idx : Z) : bool :=
  match dict_get str_eqb kidx keyword with
  | Some posting => existsb (Z.eqb idx) posting
  | None => false
  end.

(** The keywords with later repetitions removed. *)
Fixpoint distinct (l : list str) : list str :=
  match l with
  | [] => []
  | x :: l' => x :: filter (fun y => negb (str_eqb x y)) (distinct l')
  end.

(** The score as the specification words it: the number of distinct keywords
    whose posting list contains the document. *)
Definition spec_keyword_score `{Unicode} (kidx : dict str (list Z))
    (keywords : list str) (idx : Z) : Z :=
  len (filter (fun kw => posting_contains kidx kw idx)
              (distinct (map lower keywords))).

(** The score the code computes: one point for every keyword of the list,
    repeated or not, whose posting list contains the document. *)
Definition matching_keywords `{Unicode} (kidx : dict str (list Z))
    (keywords : list str) (idx : Z) : Z :=
  len (filter (fun kw => posting_contains kidx (lower kw) idx) keywords).

(** The documents in the order in which keyword search first scores them:
    keywords in order, each posting list in order. *)
Definition add_key (keys : list Z) (i : Z) : list Z :=
  if existsb (Z.eqb i) keys then keys else keys ++ [i].

Definition first_match_order `{Unicode} (kidx : dict str (list Z))
    (keywords : list str) : list Z :=
  fold_left add_key
    (flat_map (fun kw => match dict_get str_eqb kidx (lower kw) with
                         | Some posting => posting
                         | None => []
                         end) keywords) [].

(** The two contributions to the fused score, as the specification writes
    them. *)
Definition vector_contribution (d : Q) : Q := (weight_vector * (1 / (d + 1)))%Q.

Definition keyword_contribution (ks : Z) : Q :=
  (weight_keyword * (inject_Z ks / (inject_Z ks + 1)))%Q.

Definition find_index (idx : Z) (l : list result) : option result :=
  find (fun r => index r =? idx) l.

(** The sum of the contributions that apply to a document, given its entry in
    the vector list and its entry in the keyword list. *)
Definition applicable_sum (ov ok : option result) : Q :=
  match ov, ok with
  | Some rv, Some rk =>
      (vector_contribution (distance rv)
       + keyword_contribution (get_keyword_score rk))%Q
  | Some rv, None => vector_contribution (distance rv)
  | None, Some rk => keyword_contribution (get_keyword_score rk)
  | None, None => 0%Q
  end.

(** A candidate list with the document [idx] taken out. *)
Definition without (idx : Z) (l : list result) : list result :=
  filter (fun r => negb (index r =? idx)) l.

(** The invariant of the keyword index: a posting list names every document
    at most once, and only documents [0 .. n-1]. *)
Definition kidx_wf (n : Z) (kidx : dict str (list Z)) : Prop :=
  forall w p, dict_get str_eqb kidx w = Some p ->
              NoDup p /\ Forall (fun i => 0 <= i < n) p.

(** The posting list of a keyword, empty when the keyword is not indexed. *)
Definition posting_of (kidx : dict str (list Z)) (keyword : str) : list Z :=
  match dict_get str_eqb kidx keyword with
  | Some posting => posting
  | None => []
  end.

(** The invariant of the score counter: one entry per document, every
    count at least 1. *)
Definition scores_wf (scores : dict Z Z) : Prop :=
  NoDup (dict_keys scores) /\ Forall (fun kv => 1 <= snd kv) scores.

(** The contributions a candidate list makes to the document [idx], one for
    every entry of the list that names it. *)
Definition vector_sum (idx : Z) (l : list result) : Q :=
  fold_right
    (fun r acc =>
       if index r =? idx then (vector_contribution (distance r) + acc)%Q
       else acc)
    0%Q l.

Definition keyword_sum (idx : Z) (l : list result) : Q :=
  fold_right
    (fun r acc =>
       if index r =? idx
       then (keyword_contribution (get_keyword_score r) + acc)%Q
       else acc)
    0%Q l.

(** The invariant of the dict [combined]: one entry per key, filed under its
    own index, whose fused score is [f] of that index; [f] is zero on the
    documents that have no entry yet. *)
Definition fused (combined : dict Z result) (f : Z -> Q) : Prop :=
  NoDup (dict_keys combined)
  /\ forall idx,
       match dict_get Z.eqb combined idx with
       | Some e =>
           index e = idx
           /\ exists s, combined_score e = Some s /\ (s == f idx)%Q
       | None => (f idx == 0)%Q
       end.

(** What every record built by the result loop looks like. *)
Definition keyword_record (scores : dict Z Z) (r : result) : Prop :=
  keyword_score r = Some (counter_get scores (index r))
  /\ distance r = (1 / inject_Z (counter_get scores (index r) + 1))%Q
  /\ combined_score r = None.

(** The indices keyword search turns into records. *)
Definition top_indices_of `{Unicode} (self : DongyoVectorDB) (keywords : list str)
    (top_k : Z) : list Z :=
  py_slice_to
    (map fst (most_common
                (score_keywords (keyword_index self) (map lower keywords))
                (top_k * 2)))
    top_k.

(** A loop body that adds a score to the entry of its record. *)
Definition adds_score (body : dict Z result -> result -> res (dict Z result))
  : Prop :=
  forall c r c',
    body c r = Ok c' ->
    exists score, c' = add_score (ensure_entry c r) r score.

(** A record carries the synthetic distance of keyword search. *)
Definition synthetic_distance (r : result) : Prop :=
  exists s, keyword_score r = Some s
            /\ distance r = (1 / inject_Z (s + 1))%Q.

(** Every entry of [combined] belongs to a document of the vector list or
    has the distance and the keyword score of a keyword result. *)
Definition origin (v k : list result) (c : dict Z result) : Prop :=
  forall idx e,
    dict_get Z.eqb c idx = Some e ->
    In idx (map index v)
    \/ exists rk, In rk k /\ distance e = distance rk
                  /\ keyword_score e = keyword_score rk.

(** FAISS checks the number of neighbours it is asked for: [index.search]
    asserts [k > 0]. *)
Definition faiss_checks_k (search : list Q -> Z -> res (list (Q * Z)))
  : Prop :=
  forall query_embedding k,
    k <= 0 -> search query_embedding k = Raise AssertionError.

(** * Example data *)

Definition six_songs : metadata_t :=
  MetaRecords
    (map (fun t => SongDict (Some (lit t)) None (Some (lit "la la")))
         ["moon"; "star"; "sun"; "rain"; "wind"; "snow"]%string).

(** An index over the six songs: the nearest neighbours are the songs in
    order, at distances 0.1, 0.2, ... *)
Definition six_search (_ : list Q) (k : Z) : res (list (Q * Z)) :=
  Ok (firstn (Z.to_nat k)
        [((1 # 10)%Q, 0); ((2 # 10)%Q, 1); ((3 # 10)%Q, 2);
         ((4 # 10)%Q, 3); ((5 # 10)%Q, 4); ((6 # 10)%Q, 5)]).

Definition six_agent : RetrieverAgent :=
  {| client := fun _ => Ok []; db := DongyoVectorDB_init six_songs six_search |}.

(** A corpus of one song.  Asked for two neighbours, the index fills the
    missing one with the label -1 and the largest single-precision distance,
    as FAISS does. *)
Definition one_song : metadata_t :=
  MetaRecords [SongDict (Some (lit "moon")) None (Some (lit "la la"))].

Definition float32_max : Q := inject_Z 340282346638528859811704183484516925440.

Definition one_search (_ : list Q) (k : Z) : res (list (Q * Z)) :=
  Ok (firstn (Z.to_nat k) [(0%Q, 0); (float32_max, -1)]).

Definition one_agent : RetrieverAgent :=
  {| client := fun _ => Ok []; db := DongyoVectorDB_init one_song one_search |}.

Definition sample_result : result :=
  {| index := 0; distance := 1 # 10; keyword_score := None;
     title := lit "moon"; feature_summary := []; lyrics := lit "la la";
     combined_score := None |}.

(** What [retrieve] returns for the query "star" with [top_k = 2] on the six
    songs, hybrid search on. *)
Definition six_star_result : list result :=
  Eval vm_compute in
    match retrieve six_agent (lit "star") 2 None true with
    | Ok l => l
    | Raise _ => []
    end.

(** Two hand-made candidate lists: songs 0 and 1 from vector search, songs 1
    and 2 from keyword search. *)
Definition sample_vector_results : list result :=
  [ {| index := 0; distance := 1 # 10; keyword_score := None;
       title := lit "moon"; feature_summary := []; lyrics := lit "la la";
       combined_score := None |};
    {| index := 1; distance := 2 # 10; keyword_score := None;
       title := lit "star"; feature_summary := []; lyrics := lit "la la";
       combined_score := None |} ].

Definition sample_keyword_results : list result :=
  [ {| index := 1; distance := 1 # 4; keyword_score := Some 3;
       title := lit "star"; feature_summary := []; lyrics := lit "la la";
       combined_score := None |};
    {| index := 2; distance := 1 # 2; keyword_score := Some 1;
       title := lit "sun"; feature_summary := []; lyrics := lit "la la";
       combined_score := None |} ].

Definition sample_fused_results : list result :=
  Eval vm_compute in
    match _combine_results sample_vector_results sample_keyword_results 4 with
    | Ok l => l
    | Raise _ => []
    end.

(** The six songs behind an index that puts every song far from the query:
    distances 4, 5, ... *)
Definition far_search (_ : list Q) (k : Z) : res (list (Q * Z)) :=
  Ok (firstn (Z.to_nat k)
        [(4%Q, 0); (5%Q, 1); (6%Q, 2); (7%Q, 3); (8%Q, 4); (9%Q, 5)]).

Definition far_agent : RetrieverAgent :=
  {| client := fun _ => Ok []; db := DongyoVectorDB_init six_songs far_search |}.

Definition far_vector_results : list result :=
  Eval vm_compute in
    match search_similar (db far_agent) [] (1 * 3) with
    | Ok l => l
    | Raise _ => []
    end.

Definition far_snow_result : list result :=
  Eval vm_compute in
    match retrieve far_agent (lit "snow") 1 None true with
    | Ok l => l
    | Raise _ => []
    end.

(** The vector results of the hybrid query on the six songs, [top_k = 2]. *)
Definition six_vector_results : list result :=
  Eval vm_compute in
    match search_similar (db six_agent) [] (2 * 3) with
    | Ok l => l
    | Raise _ => []
    end.

(** An index search with the argument check of FAISS in front. *)
Definition faiss_checked (search : list Q -> Z -> res (list (Q * Z)))
  : list Q -> Z -> res (list (Q * Z)) :=
  fun query_embedding k =>
    if k <=? 0 then Raise AssertionError else search query_embedding k.

(** The six songs behind a checked index, and the same with an embedding
    client that is out of service. *)
Definition checked_agent : RetrieverAgent :=
  {| client := fun _ => Ok [];
     db := DongyoVectorDB_init six_songs (faiss_checked six_search) |}.

Definition offline_agent : RetrieverAgent :=
  {| client := fun _ => Raise ServiceError;
     db := DongyoVectorDB_init six_songs (faiss_checked six_search) |}.

(** The corpus of one song, asked for three neighbours as a hybrid retrieval
    with [top_k = 1] does: the index fills two places with the label -1. *)
Definition padded_search (_ : list Q) (k : Z) : res (list (Q * Z)) :=
  Ok (firstn (Z.to_nat k) [(0%Q, 0); (float32_max, -1); (float32_max, -1)]).

Definition padded_agent : RetrieverAgent :=
  {| client := fun _ => Ok [];
     db := DongyoVectorDB_init one_song (faiss_checked padded_search) |}.

Definition padded_vector_results : list result :=
  Eval vm_compute in
    match search_similar (db padded_agent) [] (1 * 3) with
    | Ok l => l
    | Raise _ => []
    end.

Definition padded_keyword_results : list result :=
  Eval vm_compute in
    match search_by_keywords (db padded_agent)
            (_extract_keywords (lit "moon")) (1 * 2) with
    | Ok l => l
    | Raise _ => []
    end.

Definition padded_fused_results : list result :=
  Eval vm_compute in
    match _combine_results padded_vector_results padded_keyword_results
            (1 * 2) with
    | Ok l => l
    | Raise _ => []
    end.

(** * Lemmas on the runtime model *)

Lemma bind_Ok {A B : Type} (m : res A) (f : A -> res B) (b : B) :
  bind m f = Ok b -> exists a, m = Ok a /\ f a = Ok b.
Proof.
  destruct m as [a|e]; simpl; intros E; [eauto | discriminate].
Qed.

Ltac inv_bind H :=
  let a := fresh "a" in
  let Ha := fresh "Ha" in
  apply bind_Ok in H; destruct H as (a & Ha & H).

Lemma len_nonneg {A : Type} (l : list A) : 0 <= len l.
Proof. unfold len; lia. Qed.

Lemma len_cons {A : Type} (a : A) (l : list A) : len (a :: l) = len l + 1.
Proof. unfold len; simpl length; lia. Qed.

Lemma len_app {A : Type} (l1 l2 : list A) : len (l1 ++ l2) = len l1 + len l2.
Proof. unfold len; rewrite length_app; lia. Qed.

Lemma len_map {A B : Type} (f : A -> B) (l : list A) : len (map f l) = len l.
Proof. unfold len; now rewrite length_map. Qed.

Lemma py_slice_to_len {A : Type} (l : list A) (k : Z) :
  0 <= k -> len (py_slice_to l k) <= k.
Proof.
  intros Hk. unfold py_slice_to, len.
  destruct (Z.leb_spec 0 k); [|lia].
  rewrite length_firstn. lia.
Qed.

Lemma py_slice_to_prefix {A : Type} (l : list A) (k : Z) :
  exists rest, l = py_slice_to l k ++ rest.
Proof.
  unfold py_slice_to.
  destruct (0 <=? k); eexists; symmetry; apply firstn_skipn.
Qed.

Lemma py_slice_to_In {A : Type} (l : list A) (k : Z) (x : A) :
  In x (py_slice_to l k) -> In x l.
Proof.
  destruct (py_slice_to_prefix l k) as [rest E].
  intros Hx. rewrite E. apply in_or_app. now left.
Qed.

Lemma py_slice_to_nil {A : Type} (k : Z) : py_slice_to (@nil A) k = [].
Proof.
  unfold py_slice_to. destruct (0 <=? k); now rewrite firstn_nil.
Qed.

Lemma StronglySorted_app_l {A : Type} (R : A -> A -> Prop) (l1 l2 : list A) :
  StronglySorted R (l1 ++ l2) -> StronglySorted R l1.
Proof.
  induction l1 as [|a l1 IH]; simpl; intros S; [constructor|].
  inversion S as [|? ? S' F]; subst. constructor; [auto|].
  rewrite Forall_app in F. tauto.
Qed.

Lemma py_slice_to_sorted {A : Type} (R : A -> A -> Prop) (l : list A) (k : Z) :
  StronglySorted R l -> StronglySorted R (py_slice_to l k).
Proof.
  destruct (py_slice_to_prefix l k) as [rest E].
  intros S. rewrite E in S. now apply StronglySorted_app_l in S.
Qed.

Lemma precedes_app_l {A : Type} (l rest : list A) (a b : A) :
  precedes l a b -> precedes (l ++ rest) a b.
Proof.
  intros (l1 & l2 & l3 & ->). exists l1, l2, (l3 ++ rest).
  now rewrite <- !app_assoc, <- !app_comm_cons, <- app_assoc.
Qed.

Lemma precedes_cons {A : Type} (l : list A) (x a b : A) :
  precedes l a b -> precedes (x :: l) a b.
Proof.
  intros (l1 & l2 & l3 & ->). now exists (x :: l1), l2, l3.
Qed.

Lemma precedes_head {A : Type} (l : list A) (a b : A) :
  In b l -> precedes (a :: l) a b.
Proof.
  intros Hb. apply in_split in Hb as (l2 & l3 & ->). now exists [], l2, l3.
Qed.

Lemma precedes_cons_inv {A : Type} (l : list A) (x a b : A) :
  precedes (x :: l) a b -> (a = x /\ In b l) \/ precedes l a b.
Proof.
  intros (l1 & l2 & l3 & E). destruct l1 as [|y l1]; simpl in E.
  - injection E as -> ->. left. split; [reflexivity|].
    apply in_or_app. right. now left.
  - injection E as -> ->. right. now exists l1, l2, l3.
Qed.

Lemma precedes_In_l {A : Type} (l : list A) (a b : A) :
  precedes l a b -> In a l.
Proof.
  intros (l1 & l2 & l3 & ->). apply in_or_app. right. now left.
Qed.

Lemma precedes_py_slice_to {A : Type} (l : list A) (k : Z) (a b : A) :
  precedes (py_slice_to l k) a b -> precedes l a b.
Proof.
  destruct (py_slice_to_prefix l k) as [rest E].
  intros P. rewrite E. now apply precedes_app_l.
Qed.

Lemma precedes_firstn {A : Type} (l : list A) (n : nat) (a b : A) :
  precedes (firstn n l) a b -> precedes l a b.
Proof.
  intros P. rewrite <- (firstn_skipn n l). now apply precedes_app_l.
Qed.

Lemma precedes_map_inv {A B : Type} (f : A -> B) (l : list A) (x y : B) :
  precedes (map f l) x y ->
  exists a b, precedes l a b /\ f a = x /\ f b = y.
Proof.
  intros (l1 & l2 & l3 & E).
  apply map_eq_app in E as (m1 & m' & -> & <- & E).
  apply map_eq_cons in E as (a & m'' & -> & <- & E).
  apply map_eq_app in E as (m2 & m''' & -> & <- & E).
  apply map_eq_cons in E as (b & m3 & -> & <- & <-).
  exists a, b. split; [|auto]. now exists m1, m2, m3.
Qed.

Lemma precedes_map {A B : Type} (f : A -> B) (l : list A) (a b : A) :
  precedes l a b -> precedes (map f l) (f a) (f b).
Proof.
  intros (l1 & l2 & l3 & ->).
  exists (map f l1), (map f l2), (map f l3).
  now rewrite map_app, map_cons, map_app, map_cons.
Qed.

(** ** The sort *)
Section SortFacts.
Context {A : Type} (lt : A -> A -> bool).

Lemma insert_perm (x : A) (l : list A) : Permutation (insert lt x l) (x :: l).
Proof.
  induction l as [|y l IH]; simpl; [reflexivity|].
  destruct (lt y x); [|reflexivity].
  rewrite IH. apply perm_swap.
Qed.

Lemma sorted_perm (l : list A) : Permutation (sorted lt l) l.
Proof.
  induction l as [|x l IH]; simpl; [reflexivity|].
  rewrite insert_perm. now constructor.
Qed.

Lemma sorted_In (l : list A) (x : A) : In x (sorted lt l) <-> In x l.
Proof.
  split; apply Permutation_in; [|symmetry]; apply sorted_perm.
Qed.

Lemma sorted_length (l : list A) : length (sorted lt l) = length l.
Proof. apply Permutation_length, sorted_perm. Qed.

Section Order.
Variable R : A -> A -> Prop.
Hypothesis R_trans : forall a b c, R a b -> R b c -> R a c.
Hypothesis lt_true : forall a b, lt a b = true -> R a b.
Hypothesis lt_false : forall a b, lt a b = false -> R b a.

Lemma insert_sorted (x : A) (l : list A) :
  StronglySorted R l -> StronglySorted R (insert lt x l).
Proof.
  induction l as [|y l IH]; simpl; intros S.
  - repeat constructor.
  - inversion S as [|? ? S' F]; subst.
    destruct (lt y x) eqn:E.
    + constructor; [auto|].
      rewrite Forall_forall in *. intros z Hz.
      apply (Permutation_in _ (insert_perm x l)) in Hz.
      destruct Hz as [<-|Hz]; auto.
    + constructor; [assumption|].
      constructor; [auto|].
      rewrite Forall_forall in *. intros z Hz. eauto.
Qed.

Lemma sorted_sorted (l : list A) : StronglySorted R (sorted lt l).
Proof.
  induction l as [|x l IH]; simpl; [constructor|].
  now apply insert_sorted.
Qed.
End Order.

Lemma insert_precedes (x : A) (l : list A) (a b : A) :
  precedes (insert lt x l) a b ->
  precedes l a b \/ (a = x /\ In b l) \/ (b = x /\ lt a x = true).
Proof.
  induction l as [|y l IH]; simpl; intros P.
  - destruct P as (l1 & l2 & l3 & E).
    destruct l1 as [|? [|? ?]]; simpl in E; try discriminate.
    injection E as _ E. destruct l2; discriminate.
  - destruct (lt y x) eqn:E.
    + apply precedes_cons_inv in P as [[-> Hb]|P].
      * apply (Permutation_in _ (insert_perm x l)) in Hb.
        destruct Hb as [<-|Hb]; [right; right; split; [reflexivity|assumption]|].
        left. now apply precedes_head.
      * apply IH in P as [P|[[-> Hb]|[-> Ha]]].
        -- left. now apply precedes_cons.
        -- right. left. split; [reflexivity|]. now right.
        -- right; right. split; [reflexivity|assumption].
    + apply precedes_cons_inv in P as [[-> Hb]|P].
      * right; left. split; [reflexivity|assumption].
      * now left.
Qed.

(** Stability: two elements of which the first is not smaller than the
    second keep their original order. *)
Lemma sorted_stable (l : list A) (a b : A) :
  precedes (sorted lt l) a b -> lt a b = false -> precedes l a b.
Proof.
  induction l as [|x l IH]; simpl; intros P E.
  - destruct P as (l1 & l2 & l3 & P). destruct l1; discriminate.
  - apply insert_precedes in P as [P|[[-> Hb]|[-> Ha]]].
    + apply precedes_cons. auto.
    + apply precedes_head. exact (proj1 (sorted_In l b) Hb).
    + congruence.
Qed.
End SortFacts.

Lemma Qltb_true (x y : Q) : Qltb x y = true -> (x < y)%Q.
Proof.
  unfold Qltb. intros E. apply negb_true_iff in E.
  apply Qnot_le_lt. intros L. apply Qle_bool_iff in L. congruence.
Qed.

Lemma Qltb_false (x y : Q) : Qltb x y = false -> (y <= x)%Q.
Proof.
  unfold Qltb. intros E. apply negb_false_iff in E.
  now apply Qle_bool_iff.
Qed.

(** * The category filter *)

Section FilterFacts.
Context `{Unicode}.

Lemma no_truthy_value (categories : dict str str) :
  Forall (fun kv => snd kv = []) categories ->
  existsb truthy (dict_values categories) = false.
Proof.
  induction 1 as [|[k v] cats Hv _ IH]; simpl in *; [reflexivity|].
  now rewrite Hv, IH.
Qed.

Lemma filter_length_le {A : Type} (f : A -> bool) (l : list A) :
  len (filter f l) <= len l.
Proof.
  induction l as [|a l IH]; simpl; [lia|].
  destruct (f a); rewrite ?len_cons; lia.
Qed.

(** Every pattern the code keeps is one of the specification's patterns. *)
Lemma category_keywords_of_incl (categories : dict str str) (kw : str) :
  In kw (category_keywords_of categories) ->
  In kw (map lower (filter truthy (dict_values categories))).
Proof.
  unfold category_keywords_of, dict_values.
  induction categories as [|[k v] cats IH]; simpl; [auto|].
  destruct (truthy v) eqn:Ev; simpl.
  - destruct (truthy (strip v)); simpl; intuition.
  - auto.
Qed.

Lemma matched_spec (categories : dict str str) (r : result) :
  matched (category_keywords_of categories) r = true ->
  existsb (fun pattern => contains (searchable_text r) pattern)
          (map lower (filter truthy (dict_values categories))) = true.
Proof.
  unfold matched. rewrite !existsb_exists.
  intros (kw & Hin & Hc). exists kw. split; [|assumption].
  now apply category_keywords_of_incl.
Qed.

Lemma filter_nil_weaken {A : Type} (f g : A -> bool) (l : list A) :
  (forall a, f a = true -> g a = true) ->
  filter g l = [] -> filter f l = [].
Proof.
  intros Hfg. induction l as [|a l IH]; simpl; [reflexivity|].
  destruct (g a) eqn:Eg; [discriminate|].
  destruct (f a) eqn:Ef; [|assumption].
  apply Hfg in Ef. congruence.
Qed.

Lemma filter_by_categories_cases (results : list result)
    (categories : dict str str) :
  filter_by_categories results categories = results
  \/ (filter_by_categories results categories
      = filter (matched (category_keywords_of categories)) results
      /\ filter (matched (category_keywords_of categories)) results <> []).
Proof.
  unfold filter_by_categories.
  destruct (negb (truthy categories) || _); [now left|].
  destruct (negb (truthy (category_keywords_of categories))); [now left|].
  destruct (Z.leb_spec 1
              (len (filter (matched (category_keywords_of categories))
                      results))) as [L|L]; [|now left].
  right. split; [reflexivity|]. intros E. rewrite E in L.
  unfold len in L. simpl in L. lia.
Qed.

Lemma filter_by_categories_In (results : list result)
    (categories : dict str str) (r : result) :
  In r (filter_by_categories results categories) -> In r results.
Proof.
  destruct (filter_by_categories_cases results categories) as [->|[-> _]];
    [auto|].
  intros Hr. now apply filter_In in Hr.
Qed.

Lemma filter_by_categories_len (results : list result)
    (categories : dict str str) :
  len (filter_by_categories results categories) <= len results.
Proof.
  destruct (filter_by_categories_cases results categories) as [->|[-> _]];
    [lia|apply filter_length_le].
Qed.

Lemma filter_sorted {A : Type} (R : A -> A -> Prop) (f : A -> bool)
    (l : list A) :
  StronglySorted R l -> StronglySorted R (filter f l).
Proof.
  induction 1 as [|a l S IH F]; simpl; [constructor|].
  destruct (f a); [|assumption].
  constructor; [assumption|].
  rewrite Forall_forall in *. intros x Hx.
  apply filter_In in Hx. now apply F.
Qed.

(** C4: when the filter by the non-empty category values leaves no
    candidate, [filter_by_categories] returns its input unchanged; and its
    output is never empty when its input is not. *)
Theorem filter_by_categories_fail_open (results : list result)
    (categories : dict str str) :
  (spec_category_filter results categories = [] ->
   filter_by_categories results categories = results)
  /\ (results <> [] -> filter_by_categories results categories <> []).
Proof.
  split.
  - intros E.
    destruct (filter_by_categories_cases results categories)
      as [->|[_ Hne]]; [reflexivity|].
    exfalso. apply Hne.
    apply (filter_nil_weaken _ _ results (matched_spec categories)).
    exact E.
  - intros Hne.
    destruct (filter_by_categories_cases results categories)
      as [->|[-> Hf]]; assumption.
Qed.

(** C5: the category filter returns its input unchanged when the mapping is
    empty or all its values are empty strings. *)
Theorem filter_by_categories_identity (results : list result)
    (categories : dict str str) :
  categories = [] \/ Forall (fun kv => snd kv = []) categories ->
  filter_by_categories results categories = results.
Proof.
  intros [->|Hall]; [reflexivity|].
  unfold filter_by_categories.
  rewrite (no_truthy_value _ Hall).
  now rewrite orb_true_r.
Qed.
End FilterFacts.

Lemma filter_by_categories_fail_open_witness :
  spec_category_filter [sample_result] [(lit "season", lit "winter")] = []
  /\ [sample_result] <> []
  /\ filter_by_categories [sample_result] [(lit "season", lit "winter")]
     = [sample_result]
  /\ filter_by_categories [sample_result] [(lit "season", lit "winter")] <> [].
Proof.
  assert (E : spec_category_filter [sample_result]
                [(lit "season", lit "winter")] = []) by reflexivity.
  assert (N : [sample_result] <> []) by discriminate.
  destruct (filter_by_categories_fail_open [sample_result]
              [(lit "season", lit "winter")]) as [F1 F2].
  exact (conj E (conj N (conj (F1 E) (F2 N)))).
Defined.

Lemma filter_by_categories_identity_witness :
  Forall (fun kv : str * str => snd kv = [])
         [(lit "season", []); (lit "animal", [])]
  /\ filter_by_categories [sample_result]
       [(lit "season", []); (lit "animal", [])] = [sample_result].
Proof.
  assert (F : Forall (fun kv : str * str => snd kv = [])
                [(lit "season", []); (lit "animal", [])])
    by (repeat constructor).
  split; [exact F|].
  apply (filter_by_categories_identity [sample_result] _ (or_intror F)).
Defined.

(** * The retrieval pipeline *)

Section RetrieveFacts.
Context `{Unicode}.

Lemma sorted_by_distance (l : list result) :
  StronglySorted (fun a b => (distance a <= distance b)%Q)
    (sorted (fun a b => Qltb (distance a) (distance b)) l).
Proof.
  apply sorted_sorted.
  - intros a b c. apply Qle_trans.
  - intros a b E. apply Qlt_le_weak. now apply Qltb_true.
  - intros a b E. now apply Qltb_false.
Qed.

(** C1, as the code has it: whatever the search mode, and also when fusion
    ran and every candidate carries a fused score, the list [retrieve]
    returns is in ascending order of [distance], and has at most [top_k]
    entries. *)
Theorem retrieve_sorted_by_distance (self : RetrieverAgent) (search_query : str)
    (top_k : Z) (categories : option (dict str str)) (use_hybrid : bool)
    (final_results : list result) :
  1 <= top_k ->
  retrieve self search_query top_k categories use_hybrid = Ok final_results ->
  StronglySorted (fun a b => (distance a <= distance b)%Q) final_results
  /\ len final_results <= top_k.
Proof.
  intros Hk E. unfold retrieve in E.
  inv_bind E. inv_bind E. inv_bind E.
  injection E as <-. split.
  - apply py_slice_to_sorted, sorted_by_distance.
  - apply py_slice_to_len. lia.
Qed.

(** C9, as the code has it: [retrieve] does not check [top_k].  With
    [top_k < 1] it first calls the embedding client, whose failure is the
    outcome when it fails; otherwise it calls the index search with the
    unchecked width, and the index's own exception (FAISS asserts [k > 0])
    is the outcome.  The call never returns a result. *)
Theorem retrieve_top_k_unchecked (self : RetrieverAgent) (search_query : str)
    (top_k : Z) (categories : option (dict str str)) (use_hybrid : bool) :
  top_k < 1 ->
  faiss_checks_k (index_search (db self)) ->
  (forall e,
      client self search_query = Raise e ->
      retrieve self search_query top_k categories use_hybrid = Raise e)
  /\ (forall query_embedding,
        client self search_query = Ok query_embedding ->
        retrieve self search_query top_k categories use_hybrid
        = Raise AssertionError).
Proof.
  intros Hk Hf. unfold retrieve, search_similar. split.
  - intros e ->. reflexivity.
  - intros emb ->. simpl.
    rewrite (Hf emb (if use_hybrid then top_k * 3 else top_k));
      [reflexivity|].
    destruct use_hybrid; lia.
Qed.
End RetrieveFacts.

(** C1, as stated, fails: fusion ran, both returned candidates carry a fused
    score, and the candidate with the smaller fused score comes first. *)
Lemma retrieve_not_by_combined_score :
  truthy (_extract_keywords (lit "star")) = true
  /\ retrieve six_agent (lit "star") 2 None true = Ok six_star_result
  /\ map (fun r => (index r, distance r, combined_score r)) six_star_result
     = [(0, (1 # 10)%Q, Some (70 # 110)%Q); (1, (2 # 10)%Q, Some (1760 # 2400)%Q)]
  /\ ~ StronglySorted
        (fun a b => (get_combined_score b <= get_combined_score a)%Q)
        six_star_result.
Proof.
  repeat split; try reflexivity.
  intros S. inversion S as [|? ? _ F]; subst.
  inversion F as [|? ? L _]; subst.
  vm_compute in L. now apply L.
Qed.

Lemma retrieve_sorted_by_distance_witness :
  1 <= 2
  /\ retrieve six_agent (lit "star") 2 None true = Ok six_star_result
  /\ StronglySorted (fun a b => (distance a <= distance b)%Q) six_star_result
  /\ len six_star_result <= 2.
Proof.
  assert (K : 1 <= 2) by lia.
  assert (E : retrieve six_agent (lit "star") 2 None true = Ok six_star_result)
    by reflexivity.
  exact (conj K (conj E
           (retrieve_sorted_by_distance six_agent (lit "star") 2 None true
              six_star_result K E))).
Defined.

(** C2 at a corpus of one song and [top_k = 2]: the index search fills the
    second place with the label -1, [search_similar] lets it through, and
    [retrieve] returns a record whose index is -1. *)
Lemma retrieve_returns_label_minus_one :
  song_count one_song = 1
  /\ exists l, retrieve one_agent (lit "moon") 2 None false = Ok l
             /\ map index l = [0; -1].
Proof.
  split; [reflexivity|]. eexists. split; reflexivity.
Qed.

(** C9, as stated, fails: with [top_k = 0] the exception of the call is the
    assertion of the index search, reached after the embedding call, and not
    an argument error of [retrieve]; and when the embedding client is out of
    service the call fails with the client's error, so [top_k] is not looked
    at before the search work starts. *)
Lemma retrieve_top_k_zero_index_raises :
  retrieve checked_agent (lit "star") 0 None true = Raise AssertionError
  /\ retrieve offline_agent (lit "star") 0 None true = Raise ServiceError.
Proof. split; reflexivity. Qed.

Lemma retrieve_top_k_unchecked_witness :
  0 < 1
  /\ faiss_checks_k (index_search (db checked_agent))
  /\ retrieve checked_agent (lit "star") 0 None true = Raise AssertionError.
Proof.
  assert (K : 0 < 1) by lia.
  assert (F : faiss_checks_k (index_search (db checked_agent))).
  { intros emb k Hk. simpl. unfold faiss_checked.
    destruct (Z.leb_spec k 0); [reflexivity|lia]. }
  split; [exact K|]. split; [exact F|].
  apply (proj2 (retrieve_top_k_unchecked checked_agent (lit "star") 0 None true
                  K F) []).
  reflexivity.
Defined.

(** * Dictionaries *)

Lemma str_eqb_eq (a b : str) : str_eqb a b = true <-> a = b.
Proof.
  revert b. induction a as [|x a IH]; intros [|y b]; simpl;
    try (split; [discriminate|discriminate]); [tauto|].
  rewrite andb_true_iff, N.eqb_eq, IH.
  split; [intros [-> ->]|intros [= -> ->]]; auto.
Qed.

Section DictFacts.
Context {K V : Type} (eqb : K -> K -> bool).
Hypothesis eqb_eq : forall a b, eqb a b = true <-> a = b.

Lemma eqb_refl (a : K) : eqb a a = true.
Proof. now apply eqb_eq. Qed.

Lemma eqb_neq (a b : K) : a <> b -> eqb a b = false.
Proof.
  intros N. destruct (eqb a b) eqn:E; [|reflexivity].
  apply eqb_eq in E. contradiction.
Qed.

Lemma dict_get_set_same (d : dict K V) (k : K) (v : V) :
  dict_get eqb (dict_set eqb d k v) k = Some v.
Proof.
  induction d as [|[k' v'] d IH]; simpl.
  - now rewrite eqb_refl.
  - destruct (eqb k k') eqn:E; simpl; rewrite E; auto.
Qed.

Lemma dict_get_set_other (d : dict K V) (k k' : K) (v : V) :
  k' <> k -> dict_get eqb (dict_set eqb d k v) k' = dict_get eqb d k'.
Proof.
  intros N. induction d as [|[k0 v0] d IH]; simpl.
  - now rewrite eqb_neq.
  - destruct (eqb k k0) eqn:E; simpl.
    + apply eqb_eq in E. subst k0. now rewrite (eqb_neq _ _ N).
    + now rewrite IH.
Qed.

Lemma dict_get_In (d : dict K V) (k : K) (v : V) :
  dict_get eqb d k = Some v -> In (k, v) d.
Proof.
  induction d as [|[k' v'] d IH]; simpl; [discriminate|].
  destruct (eqb k k') eqn:E.
  - apply eqb_eq in E. intros [= ->]. left. now subst.
  - auto.
Qed.

Lemma dict_get_None (d : dict K V) (k : K) :
  dict_get eqb d k = None <-> ~ In k (dict_keys d).
Proof.
  induction d as [|[k' v'] d IH]; simpl; [tauto|].
  destruct (eqb k k') eqn:E.
  - apply eqb_eq in E. subst. split; [discriminate|]. tauto.
  - rewrite IH. split; [|tauto]. intros N [->|I]; [|tauto].
    rewrite eqb_refl in E. discriminate.
Qed.

Lemma dict_get_Some_key (d : dict K V) (k : K) (v : V) :
  dict_get eqb d k = Some v -> In k (dict_keys d).
Proof.
  intros E. apply dict_get_In in E.
  unfold dict_keys. now apply (in_map fst) in E.
Qed.

Lemma In_dict_get (d : dict K V) (k : K) (v : V) :
  NoDup (dict_keys d) -> In (k, v) d -> dict_get eqb d k = Some v.
Proof.
  induction d as [|[k' v'] d IH]; simpl; [tauto|].
  intros ND [[= -> ->]|I].
  - now rewrite eqb_refl.
  - inversion ND as [|? ? N ND']; subst.
    destruct (eqb k k') eqn:E; [|auto].
    apply eqb_eq in E. subst. exfalso. apply N.
    unfold dict_keys. now apply (in_map fst) in I.
Qed.

Lemma dict_keys_set (d : dict K V) (k : K) (v : V) :
  dict_keys (dict_set eqb d k v)
  = match dict_get eqb d k with
    | Some _ => dict_keys d
    | None => dict_keys d ++ [k]
    end.
Proof.
  induction d as [|[k' v'] d IH]; simpl; [reflexivity|].
  destruct (eqb k k') eqn:E; simpl; [reflexivity|].
  rewrite IH. now destruct (dict_get eqb d k).
Qed.

Lemma dict_set_NoDup (d : dict K V) (k : K) (v : V) :
  NoDup (dict_keys d) -> NoDup (dict_keys (dict_set eqb d k v)).
Proof.
  intros ND. rewrite dict_keys_set.
  destruct (dict_get eqb d k) eqn:E; [assumption|].
  apply dict_get_None in E.
  apply NoDup_app; [assumption|repeat constructor; auto|].
  intros x Hx [<-|[]]. contradiction.
Qed.

Lemma dict_set_In (d : dict K V) (k : K) (v : V) (kv : K * V) :
  In kv (dict_set eqb d k v) -> kv = (k, v) \/ In kv d.
Proof.
  induction d as [|[k' v'] d IH]; simpl.
  - intros [<-|[]]. now left.
  - destruct (eqb k k') eqn:E; simpl.
    + apply eqb_eq in E. subst. intros [<-|I]; auto.
    + intros [<-|I]; auto. apply IH in I. tauto.
Qed.
End DictFacts.

Arguments dict_get_set_same {K V} eqb eqb_eq d k v.
Arguments dict_get_set_other {K V} eqb eqb_eq d k k' v.

(** * The keyword index *)

Lemma existsb_Zeqb (i : Z) (l : list Z) :
  existsb (Z.eqb i) l = true <-> In i l.
Proof.
  rewrite existsb_exists. split.
  - intros (x & Hx & E). apply Z.eqb_eq in E. now subst.
  - intros Hi. exists i. split; [assumption|apply Z.eqb_refl].
Qed.

Lemma existsb_Zeqb_false (i : Z) (l : list Z) :
  existsb (Z.eqb i) l = false <-> ~ In i l.
Proof.
  rewrite <- existsb_Zeqb. now destruct (existsb (Z.eqb i) l).
Qed.

Lemma enumerate_from_range {A : Type} (s : Z) (l : list A) :
  Forall (fun p => s <= fst p < s + len l) (enumerate_from s l).
Proof.
  revert s. induction l as [|a l IH]; intros s; simpl; constructor.
  - simpl. rewrite len_cons. pose proof (len_nonneg l). lia.
  - eapply Forall_impl; [|apply (IH (s + 1))].
    intros p. simpl. rewrite len_cons. lia.
Qed.

Lemma enumerate_from_length {A : Type} (s : Z) (l : list A) :
  length (enumerate_from s l) = length l.
Proof.
  revert s. induction l as [|a l IH]; intros s; simpl; [reflexivity|].
  now rewrite IH.
Qed.

Section IndexFacts.
Context `{Unicode}.

Lemma kidx_wf_set (n : Z) (kidx : dict str (list Z)) (w : str) (p : list Z) :
  kidx_wf n kidx -> NoDup p -> Forall (fun i => 0 <= i < n) p ->
  kidx_wf n (dict_set str_eqb kidx w p).
Proof.
  intros W ND F w' p' E.
  destruct (str_eqb w' w) eqn:Ew.
  - apply str_eqb_eq in Ew. subst w'.
    rewrite (dict_get_set_same str_eqb str_eqb_eq) in E.
    injection E as <-. auto.
  - rewrite (dict_get_set_other str_eqb str_eqb_eq) in E; [eauto|].
    intros ->. rewrite (proj2 (str_eqb_eq w w) eq_refl) in Ew. discriminate.
Qed.

Lemma index_word_wf (n i : Z) (kidx : dict str (list Z)) (word : str) :
  0 <= i < n -> kidx_wf n kidx -> kidx_wf n (index_word i kidx word).
Proof.
  intros Hi W. unfold index_word.
  destruct (2 <=? len word); [|assumption].
  set (kidx1 := match dict_get str_eqb kidx word with
                | None => dict_set str_eqb kidx word []
                | Some _ => kidx
                end).
  assert (W1 : kidx_wf n kidx1).
  { unfold kidx1. destruct (dict_get str_eqb kidx word); [assumption|].
    apply kidx_wf_set; [assumption|constructor|constructor]. }
  destruct (dict_get str_eqb kidx1 word) as [p|] eqn:Ep.
  - destruct (W1 _ _ Ep) as [ND F].
    destruct (existsb (Z.eqb i) p) eqn:Ei; [assumption|].
    apply existsb_Zeqb_false in Ei.
    apply kidx_wf_set; [assumption| |].
    + apply NoDup_app; [assumption|repeat constructor; auto|].
      intros x Hx [<-|[]]. contradiction.
    + apply Forall_app. split; [assumption|]. now repeat constructor.
  - simpl. apply kidx_wf_set; [assumption| |].
    + repeat constructor. auto.
    + now repeat constructor.
Qed.

Lemma index_words_wf (n i : Z) (words : list str) (kidx : dict str (list Z)) :
  0 <= i < n -> kidx_wf n kidx ->
  kidx_wf n (fold_left (index_word i) words kidx).
Proof.
  intros Hi. revert kidx.
  induction words as [|w words IH]; simpl; intros kidx W; [assumption|].
  apply IH. now apply index_word_wf.
Qed.

Lemma build_keyword_index_wf (texts : list str) :
  kidx_wf (len texts) (build_keyword_index texts).
Proof.
  unfold build_keyword_index, enumerate.
  assert (G : forall (es : list (Z * str)) kidx,
             Forall (fun p => 0 <= fst p < len texts) es ->
             kidx_wf (len texts) kidx ->
             kidx_wf (len texts)
               (fold_left
                  (fun kidx '(i, text) =>
                     fold_left (index_word i) (findall_words text) kidx)
                  es kidx)).
  { induction es as [|[i text] es IH]; simpl; intros kidx F W; [assumption|].
    inversion F as [|? ? Hi F']; subst. apply IH; [assumption|].
    now apply index_words_wf. }
  apply G.
  - eapply Forall_impl; [|apply enumerate_from_range]. intros p. simpl. lia.
  - intros w p E. discriminate.
Qed.

Lemma build_song_texts_len (md : metadata_t) :
  len (build_song_texts md) = song_count md.
Proof.
  destruct md as [titles lyrics_list|songs]; simpl; unfold len, enumerate;
    rewrite length_map; [now rewrite enumerate_from_length|reflexivity].
Qed.

Lemma init_keyword_index_wf (md : metadata_t)
    (search : list Q -> Z -> res (list (Q * Z))) :
  kidx_wf (song_count md) (keyword_index (DongyoVectorDB_init md search)).
Proof.
  simpl. rewrite <- build_song_texts_len. apply build_keyword_index_wf.
Qed.

Lemma posting_of_wf (n : Z) (kidx : dict str (list Z)) (kw : str) :
  kidx_wf n kidx ->
  NoDup (posting_of kidx kw) /\ Forall (fun i => 0 <= i < n) (posting_of kidx kw).
Proof.
  intros W. unfold posting_of.
  destruct (dict_get str_eqb kidx kw) eqn:E; [eauto|].
  split; constructor.
Qed.
End IndexFacts.

(** * The score counter *)

Section CounterFacts.
Context `{Unicode}.

Lemma counter_get_incr (scores : dict Z Z) (i j : Z) :
  counter_get (counter_incr scores i) j
  = counter_get scores j + (if i =? j then 1 else 0).
Proof.
  unfold counter_get, counter_incr.
  destruct (dict_get Z.eqb scores i) as [c|] eqn:E;
    destruct (Z.eqb_spec i j) as [->|N].
  - rewrite (dict_get_set_same Z.eqb Z.eqb_eq), E. reflexivity.
  - rewrite (dict_get_set_other Z.eqb Z.eqb_eq) by congruence. lia.
  - rewrite (dict_get_set_same Z.eqb Z.eqb_eq), E. reflexivity.
  - rewrite (dict_get_set_other Z.eqb Z.eqb_eq) by congruence. lia.
Qed.

Lemma counter_keys_incr (scores : dict Z Z) (i : Z) :
  dict_keys (counter_incr scores i) = add_key (dict_keys scores) i.
Proof.
  unfold counter_incr, add_key.
  destruct (dict_get Z.eqb scores i) as [c|] eqn:E;
    rewrite (dict_keys_set Z.eqb), E.
  - apply (dict_get_Some_key Z.eqb Z.eqb_eq) in E.
    apply existsb_Zeqb in E. now rewrite E.
  - apply (dict_get_None Z.eqb Z.eqb_eq) in E.
    apply existsb_Zeqb_false in E. now rewrite E.
Qed.

Lemma counter_incr_wf (scores : dict Z Z) (i : Z) :
  scores_wf scores -> scores_wf (counter_incr scores i).
Proof.
  intros [ND F]. split.
  - unfold counter_incr.
    destruct (dict_get Z.eqb scores i);
      now apply (dict_set_NoDup Z.eqb Z.eqb_eq).
  - rewrite Forall_forall in *. intros kv Hkv. unfold counter_incr in Hkv.
    destruct (dict_get Z.eqb scores i) as [c|] eqn:E;
      apply (dict_set_In Z.eqb Z.eqb_eq) in Hkv as [->|I]; auto.
    + apply (dict_get_In Z.eqb Z.eqb_eq) in E. apply F in E. simpl in *. lia.
    + simpl. lia.
Qed.

Lemma counter_incrs_wf (p : list Z) (scores : dict Z Z) :
  scores_wf scores -> scores_wf (fold_left counter_incr p scores).
Proof.
  revert scores. induction p as [|i p IH]; simpl; intros scores W;
    [assumption|].
  apply IH. now apply counter_incr_wf.
Qed.

Lemma score_keyword_posting (kidx : dict str (list Z)) (scores : dict Z Z)
    (kw : str) :
  score_keyword kidx scores kw
  = fold_left counter_incr (posting_of kidx kw) scores.
Proof.
  unfold score_keyword, posting_of.
  now destruct (dict_get str_eqb kidx kw).
Qed.

Lemma posting_contains_posting (kidx : dict str (list Z)) (kw : str) (j : Z) :
  posting_contains kidx kw j = existsb (Z.eqb j) (posting_of kidx kw).
Proof.
  unfold posting_contains, posting_of.
  now destruct (dict_get str_eqb kidx kw).
Qed.

Lemma score_keywords_from_wf (kidx : dict str (list Z)) (kws : list str)
    (scores : dict Z Z) :
  scores_wf scores -> scores_wf (fold_left (score_keyword kidx) kws scores).
Proof.
  revert scores. induction kws as [|kw kws IH]; simpl; intros scores W;
    [assumption|].
  apply IH. rewrite score_keyword_posting. now apply counter_incrs_wf.
Qed.

Lemma score_keywords_wf (kidx : dict str (list Z)) (kws : list str) :
  scores_wf (score_keywords kidx kws).
Proof.
  apply score_keywords_from_wf. split; constructor.
Qed.

(** One posting list adds one point to each document it names. *)
Lemma counter_get_posting (p : list Z) (scores : dict Z Z) (j : Z) :
  NoDup p ->
  counter_get (fold_left counter_incr p scores) j
  = counter_get scores j + (if existsb (Z.eqb j) p then 1 else 0).
Proof.
  revert scores. induction p as [|i p IH]; simpl; intros scores ND; [lia|].
  inversion ND as [|? ? N ND']; subst.
  rewrite IH by assumption. rewrite counter_get_incr.
  rewrite (Z.eqb_sym j i).
  destruct (Z.eqb_spec i j) as [->|Ne]; simpl; [|lia].
  apply existsb_Zeqb_false in N. rewrite N. lia.
Qed.

Lemma counter_get_keywords (n : Z) (kidx : dict str (list Z))
    (kws : list str) (scores : dict Z Z) (j : Z) :
  kidx_wf n kidx ->
  counter_get (fold_left (score_keyword kidx) kws scores) j
  = counter_get scores j
    + len (filter (fun kw => posting_contains kidx kw j) kws).
Proof.
  intros W. revert scores.
  induction kws as [|kw kws IH]; simpl; intros scores.
  - unfold len. simpl. lia.
  - rewrite IH, score_keyword_posting.
    rewrite counter_get_posting by apply (posting_of_wf n kidx kw W).
    rewrite posting_contains_posting.
    destruct (existsb (Z.eqb j) (posting_of kidx kw)); rewrite ?len_cons; lia.
Qed.

Lemma filter_map_len {A B : Type} (f : B -> bool) (g : A -> B) (l : list A) :
  len (filter f (map g l)) = len (filter (fun a => f (g a)) l).
Proof.
  induction l as [|a l IH]; simpl; [reflexivity|].
  destruct (f (g a)); rewrite ?len_cons; lia.
Qed.

(** The counter holds, for every document, the number of keywords of the
    list whose posting list contains it. *)
Lemma counter_get_score_keywords (n : Z) (kidx : dict str (list Z))
    (keywords : list str) (j : Z) :
  kidx_wf n kidx ->
  counter_get (score_keywords kidx (map lower keywords)) j
  = matching_keywords kidx keywords j.
Proof.
  intros W. unfold score_keywords, matching_keywords.
  rewrite (counter_get_keywords n) by assumption.
  rewrite filter_map_len. reflexivity.
Qed.

Lemma counter_keys_posting (p : list Z) (scores : dict Z Z) :
  dict_keys (fold_left counter_incr p scores)
  = fold_left add_key p (dict_keys scores).
Proof.
  revert scores. induction p as [|i p IH]; simpl; intros scores;
    [reflexivity|].
  now rewrite IH, counter_keys_incr.
Qed.

Lemma counter_keys_keywords (kidx : dict str (list Z)) (kws : list str)
    (scores : dict Z Z) :
  dict_keys (fold_left (score_keyword kidx) kws scores)
  = fold_left add_key (flat_map (posting_of kidx) kws) (dict_keys scores).
Proof.
  revert scores. induction kws as [|kw kws IH]; simpl; intros scores;
    [reflexivity|].
  now rewrite IH, fold_left_app, score_keyword_posting, counter_keys_posting.
Qed.

(** The counter lists the documents in the order of their first match. *)
Lemma counter_keys_score_keywords (kidx : dict str (list Z))
    (keywords : list str) :
  dict_keys (score_keywords kidx (map lower keywords))
  = first_match_order kidx keywords.
Proof.
  unfold score_keywords, first_match_order.
  rewrite counter_keys_keywords. simpl. f_equal.
  induction keywords as [|kw kws IH]; simpl; [reflexivity|].
  now rewrite IH.
Qed.

Lemma add_keys_In (l keys : list Z) (x : Z) :
  In x (fold_left add_key l keys) -> In x keys \/ In x l.
Proof.
  revert keys. induction l as [|i l IH]; simpl; intros keys Hx; [now left|].
  apply IH in Hx as [Hx|Hx]; [|now right; right].
  unfold add_key in Hx. destruct (existsb (Z.eqb i) keys); [now left|].
  apply in_app_or in Hx as [Hx|[<-|[]]]; [now left|]. right. now left.
Qed.

Lemma score_keywords_keys_range (n : Z) (kidx : dict str (list Z))
    (kws : list str) (x : Z) :
  kidx_wf n kidx -> In x (dict_keys (score_keywords kidx kws)) -> 0 <= x < n.
Proof.
  intros W Hx. unfold score_keywords in Hx.
  rewrite counter_keys_keywords in Hx. apply add_keys_In in Hx as [[]|Hx].
  apply in_flat_map in Hx as (kw & _ & Hx).
  destruct (posting_of_wf n kidx kw W) as [_ F].
  rewrite Forall_forall in F. auto.
Qed.

Lemma scores_wf_get (scores : dict Z Z) (kv : Z * Z) :
  scores_wf scores -> In kv scores ->
  counter_get scores (fst kv) = snd kv /\ 1 <= snd kv.
Proof.
  intros [ND F] I. destruct kv as [k c]. simpl. split.
  - unfold counter_get.
    now rewrite (In_dict_get Z.eqb Z.eqb_eq scores k c ND I).
  - rewrite Forall_forall in F. now apply F in I.
Qed.
End CounterFacts.

(** * Keyword search *)

Lemma py_getitem_ok {A : Type} (l : list A) (i : Z) :
  0 <= i < len l -> exists a, py_getitem l i = Ok a.
Proof.
  intros Hi. unfold py_getitem.
  destruct (Z.ltb_spec i 0); [lia|].
  destruct (Z.ltb_spec i 0); [lia|].
  destruct (nth_error l (Z.to_nat i)) eqn:E; [eauto|].
  apply nth_error_None in E. unfold len in Hi. lia.
Qed.

Lemma float_div_Ok (x y d : Q) : float_div x y = Ok d -> d = (x / y)%Q.
Proof.
  unfold float_div. destruct (Qeq_bool y 0); [discriminate|].
  now intros [= <-].
Qed.

Lemma float_div_nonzero (x y : Q) :
  ~ (y == 0)%Q -> float_div x y = Ok (x / y)%Q.
Proof.
  intros N. unfold float_div.
  destruct (Qeq_bool y 0) eqn:E; [|reflexivity].
  apply Qeq_bool_iff in E. contradiction.
Qed.

Lemma inject_Z_nonzero (z : Z) : z <> 0 -> ~ (inject_Z z == 0)%Q.
Proof.
  intros N E. unfold Qeq in E. simpl in E. lia.
Qed.

Lemma StronglySorted_map {A B : Type} (R : B -> B -> Prop) (f : A -> B)
    (l : list A) :
  StronglySorted R (map f l) <-> StronglySorted (fun a b => R (f a) (f b)) l.
Proof.
  induction l as [|a l IH]; simpl; split; intros S; try constructor;
    inversion S as [|? ? S' F]; subst.
  - now apply IH.
  - rewrite Forall_map in F. exact F.
  - now apply IH.
  - rewrite Forall_map. exact F.
Qed.

Lemma StronglySorted_impl_In {A : Type} (R R' : A -> A -> Prop) (l : list A) :
  (forall a b, In a l -> In b l -> R a b -> R' a b) ->
  StronglySorted R l -> StronglySorted R' l.
Proof.
  intros HR S. induction S as [|a l S IH F]; constructor.
  - apply IH. intros x y Hx Hy. apply HR; now right.
  - rewrite Forall_forall in *. intros x Hx.
    apply HR; [now left|now right|auto].
Qed.

Section KeywordSearchFacts.
Context `{Unicode}.

Lemma lookup_song_ok (md : metadata_t) (idx : Z) :
  0 <= idx < song_count md -> exists t, lookup_song md idx = Ok (Some t).
Proof.
  intros Hi. destruct md as [titles lyrics_list|songs]; simpl in *.
  - destruct (Z.ltb_spec idx (len titles)); [|lia].
    destruct (py_getitem_ok titles idx Hi) as [t ->]. simpl.
    destruct (Z.ltb_spec idx (len lyrics_list)).
    + destruct (py_getitem_ok lyrics_list idx) as [l ->]; [lia|].
      simpl. eauto.
    + simpl. eauto.
  - destruct (Z.ltb_spec idx (len songs)); [|lia].
    destruct (py_getitem_ok songs idx Hi) as [m ->]. simpl. eauto.
Qed.

Lemma keyword_results_loop_spec (md : metadata_t) (scores : dict Z Z)
    (indices : list Z) (results : list result) :
  keyword_results_loop md scores indices = Ok results ->
  Forall (keyword_record scores) results.
Proof.
  revert results. induction indices as [|idx indices IH]; simpl;
    intros results E.
  - injection E as <-. constructor.
  - inv_bind E. destruct a as [[[t f] l]|]; [|auto].
    inv_bind E. inv_bind E. injection E as <-.
    constructor; [|auto].
    apply float_div_Ok in Ha0. subst a.
    repeat split.
Qed.

Lemma keyword_results_loop_total (md : metadata_t) (scores : dict Z Z)
    (indices : list Z) :
  Forall (fun i => 0 <= i < song_count md) indices ->
  Forall (fun i => 0 <= counter_get scores i) indices ->
  exists results,
    keyword_results_loop md scores indices = Ok results
    /\ map index results = indices.
Proof.
  induction indices as [|idx indices IH]; simpl; intros F1 F2.
  - exists []. auto.
  - inversion F1 as [|? ? Hi F1']; inversion F2 as [|? ? Hc F2']; subst.
    destruct (lookup_song_ok md idx Hi) as [[[t f] l] ->]. simpl.
    rewrite float_div_nonzero by (apply inject_Z_nonzero; lia). simpl.
    destruct (IH F1' F2') as (rest & -> & E). simpl.
    eexists. split; [reflexivity|]. simpl. now rewrite E.
Qed.

Lemma most_common_In (scores : dict Z Z) (n : Z) (kv : Z * Z) :
  In kv (most_common scores n) -> In kv scores.
Proof.
  unfold most_common. destruct (n <=? 0); [intros []|].
  intros I.
  assert (I' : In kv (sorted (fun a b => snd b <? snd a) scores)).
  { rewrite <- (firstn_skipn (Z.to_nat n)). apply in_or_app. now left. }
  exact (proj1 (sorted_In _ _ _) I').
Qed.

Lemma most_common_sorted (scores : dict Z Z) (n : Z) :
  StronglySorted (fun a b => snd b <= snd a) (most_common scores n).
Proof.
  unfold most_common. destruct (n <=? 0); [constructor|].
  apply (StronglySorted_app_l _ _ (skipn (Z.to_nat n)
           (sorted (fun a b => snd b <? snd a) scores))).
  rewrite firstn_skipn. apply sorted_sorted.
  - intros a b c. lia.
  - intros a b E. apply Z.ltb_lt in E. lia.
  - intros a b E. apply Z.ltb_ge in E. lia.
Qed.

Lemma most_common_stable (scores : dict Z Z) (n : Z) (a b : Z * Z) :
  precedes (most_common scores n) a b -> snd a = snd b ->
  precedes scores a b.
Proof.
  unfold most_common. destruct (n <=? 0).
  - intros (l1 & l2 & l3 & E). destruct l1; discriminate.
  - intros P E. apply precedes_firstn in P.
    apply sorted_stable in P; [assumption|].
    apply Z.ltb_ge. lia.
Qed.

Lemma top_indices_of_keys (self : DongyoVectorDB) (keywords : list str)
    (top_k : Z) (x : Z) :
  In x (top_indices_of self keywords top_k) ->
  In x (dict_keys (score_keywords (keyword_index self) (map lower keywords))).
Proof.
  intros I. apply py_slice_to_In in I.
  apply in_map_iff in I as (kv & <- & I).
  apply most_common_In in I. unfold dict_keys. now apply in_map.
Qed.

(** On a database built by [__init__], keyword search never raises, and its
    records are the top indices in order. *)
Lemma search_by_keywords_init (md : metadata_t)
    (search : list Q -> Z -> res (list (Q * Z))) (keywords : list str)
    (top_k : Z) :
  let self := DongyoVectorDB_init md search in
  let scores := score_keywords (keyword_index self) (map lower keywords) in
  exists results,
    search_by_keywords self keywords top_k = Ok results
    /\ map index results
       = (if truthy keywords then top_indices_of self keywords top_k else [])
    /\ Forall (keyword_record scores) results.
Proof.
  intros self scores. unfold search_by_keywords.
  destruct (truthy keywords) eqn:Ek; simpl.
  2:{ exists []. repeat split. constructor. }
  pose proof (init_keyword_index_wf md search) as W.
  pose proof (score_keywords_wf (keyword_index self) (map lower keywords))
    as SW.
  fold self in W. fold scores in SW.
  assert (K : forall x, In x (top_indices_of self keywords top_k) ->
                        0 <= x < song_count md /\ 1 <= counter_get scores x).
  { intros x I. apply top_indices_of_keys in I. fold scores in I. split.
    - eapply score_keywords_keys_range; eauto.
    - unfold dict_keys in I. apply in_map_iff in I as (kv & <- & I).
      destruct (scores_wf_get scores kv SW I) as [-> ?]. assumption. }
  destruct (keyword_results_loop_total md scores
              (top_indices_of self keywords top_k)) as (results & E & M).
  - rewrite Forall_forall. intros x I. now apply K.
  - rewrite Forall_forall. intros x I. apply K in I. lia.
  - exists results. split; [exact E|]. split; [exact M|].
    now apply keyword_results_loop_spec in E.
Qed.
End KeywordSearchFacts.

Section KeywordSearchTheorems.
Context `{Unicode}.
Variable md : metadata_t.
Variable search : list Q -> Z -> res (list (Q * Z)).

Let self : DongyoVectorDB := DongyoVectorDB_init md search.

Lemma top_indices_sorted (keywords : list str) (top_k : Z) :
  let scores := score_keywords (keyword_index self) (map lower keywords) in
  StronglySorted (fun i j => counter_get scores j <= counter_get scores i)
    (top_indices_of self keywords top_k).
Proof.
  intros scores. unfold top_indices_of. fold scores.
  apply py_slice_to_sorted, StronglySorted_map.
  apply (StronglySorted_impl_In (fun a b => snd b <= snd a));
    [|apply most_common_sorted].
  intros a b Ia Ib L.
  pose proof (score_keywords_wf (keyword_index self) (map lower keywords))
    as SW.
  apply most_common_In in Ia, Ib.
  destruct (scores_wf_get _ a SW Ia) as [Ea _].
  destruct (scores_wf_get _ b SW Ib) as [Eb _].
  fold scores in Ea, Eb. lia.
Qed.

Lemma top_indices_stable (keywords : list str) (top_k : Z) (i j : Z) :
  let scores := score_keywords (keyword_index self) (map lower keywords) in
  precedes (top_indices_of self keywords top_k) i j ->
  counter_get scores i = counter_get scores j ->
  precedes (first_match_order (keyword_index self) keywords) i j.
Proof.
  intros scores P E. unfold top_indices_of in P. fold scores in P.
  apply precedes_py_slice_to in P.
  apply precedes_map_inv in P as (a & b & P & <- & <-).
  pose proof (score_keywords_wf (keyword_index self) (map lower keywords))
    as SW.
  fold scores in SW.
  assert (Ia : In a scores).
  { apply (most_common_In scores (top_k * 2)).
    now apply precedes_In_l in P. }
  assert (Ib : In b scores).
  { apply (most_common_In scores (top_k * 2)).
    destruct P as (l1 & l2 & l3 & ->).
    apply in_or_app. right. right. apply in_or_app. right. now left. }
  destruct (scores_wf_get _ a SW Ia) as [Ea _].
  destruct (scores_wf_get _ b SW Ib) as [Eb _].
  apply most_common_stable in P; [|lia].
  rewrite <- counter_keys_score_keywords. fold scores.
  unfold dict_keys. now apply precedes_map.
Qed.

(** C6, as the code has it: for [top_k >= 1] keyword search returns at most
    [top_k] candidates in descending order of [keyword_score]; candidates
    with the same score stay in the order in which the search first matched
    their documents (keywords in order, each posting list in order), not in
    ascending order of document index. *)
Theorem search_by_keywords_ranking (keywords : list str) (top_k : Z) :
  1 <= top_k ->
  exists results,
    search_by_keywords self keywords top_k = Ok results
    /\ len results <= top_k
    /\ StronglySorted
         (fun a b => get_keyword_score b <= get_keyword_score a) results
    /\ (forall a b,
          precedes results a b ->
          get_keyword_score a = get_keyword_score b ->
          precedes (first_match_order (keyword_index self) keywords)
                   (index a) (index b)).
Proof.
  intros Hk.
  destruct (search_by_keywords_init md search keywords top_k)
    as (results & E & M & F).
  fold self in E, M, F.
  exists results. split; [exact E|].
  assert (S : forall r, In r results ->
                get_keyword_score r
                = counter_get
                    (score_keywords (keyword_index self) (map lower keywords))
                    (index r)).
  { rewrite Forall_forall in F. intros r I.
    destruct (F r I) as (Es & _). unfold get_keyword_score. now rewrite Es. }
  destruct (truthy keywords).
  2:{ destruct results; [|discriminate].
      split; [unfold len; simpl; lia|]. split; [constructor|].
      intros a b (l1 & l2 & l3 & P). destruct l1; discriminate. }
  split; [|split].
  - rewrite <- (len_map index), M. apply py_slice_to_len. lia.
  - pose proof (top_indices_sorted keywords top_k) as T. simpl in T.
    rewrite <- M in T. apply StronglySorted_map in T.
    revert T. apply StronglySorted_impl_In.
    intros a b Ia Ib. rewrite (S a Ia), (S b Ib). auto.
  - intros a b P Eab.
    apply top_indices_stable with (top_k := top_k).
    + rewrite <- M. now apply precedes_map.
    + rewrite <- (S a), <- (S b); [assumption| |].
      * destruct P as (l1 & l2 & l3 & ->).
        apply in_or_app. right. right. apply in_or_app. right. now left.
      * now apply precedes_In_l in P.
Qed.

(** C7, as the code has it: every candidate's [keyword_score] is the number
    of keywords of the list, counted with their repetitions, whose posting
    list contains the candidate's document; it is at least 1. *)
Theorem keyword_score_counts_keywords (keywords : list str) (top_k : Z) :
  exists results,
    search_by_keywords self keywords top_k = Ok results
    /\ Forall
         (fun r =>
            keyword_score r
            = Some (matching_keywords (keyword_index self) keywords (index r))
            /\ 1 <= matching_keywords (keyword_index self) keywords (index r))
         results.
Proof.
  destruct (search_by_keywords_init md search keywords top_k)
    as (results & E & M & F).
  fold self in E, M, F.
  exists results. split; [exact E|].
  rewrite Forall_forall in *. intros r I.
  destruct (F r I) as (Es & _).
  pose proof (init_keyword_index_wf md search) as W. fold self in W.
  rewrite (counter_get_score_keywords _ _ keywords (index r) W) in Es.
  split; [exact Es|].
  rewrite <- (counter_get_score_keywords _ _ keywords (index r) W).
  apply (in_map index) in I. rewrite M in I.
  destruct (truthy keywords); [|destruct I].
  apply top_indices_of_keys in I.
  unfold dict_keys in I. apply in_map_iff in I as (kv & Ekv & I).
  destruct (scores_wf_get _ kv
              (score_keywords_wf (keyword_index self) (map lower keywords)) I)
    as [Eg L].
  rewrite <- Ekv, Eg. exact L.
Qed.
End KeywordSearchTheorems.

(** C6, as stated, fails: two candidates with the same score come back with
    the larger document index first. *)
Lemma keyword_tie_not_by_index :
  exists a b,
    search_by_keywords (db six_agent) [lit "star"; lit "moon"] 2 = Ok [a; b]
    /\ keyword_score a = keyword_score b
    /\ index a = 1 /\ index b = 0.
Proof.
  do 2 eexists. split; [vm_compute; reflexivity|]. repeat split.
Qed.

Lemma search_by_keywords_ranking_witness :
  1 <= 2
  /\ exists results,
       search_by_keywords (db six_agent) [lit "star"; lit "moon"] 2
       = Ok results
       /\ len results <= 2
       /\ StronglySorted
            (fun a b => get_keyword_score b <= get_keyword_score a) results
       /\ (forall a b,
             precedes results a b ->
             get_keyword_score a = get_keyword_score b ->
             precedes
               (first_match_order (keyword_index (db six_agent))
                  [lit "star"; lit "moon"])
               (index a) (index b)).
Proof.
  assert (K : 1 <= 2) by lia.
  split; [exact K|].
  exact (search_by_keywords_ranking six_songs six_search
           [lit "star"; lit "moon"] 2 K).
Defined.

(** C7, as stated, fails: the query "star star" yields the keyword "star"
    twice, and the song that contains it scores 2, although one distinct
    keyword matches it. *)
Lemma keyword_score_counts_repetitions :
  _extract_keywords (lit "star star") = [lit "star"; lit "star"]
  /\ exists r,
       search_by_keywords (db six_agent) (_extract_keywords (lit "star star")) 2
       = Ok [r]
       /\ keyword_score r = Some 2
       /\ spec_keyword_score (keyword_index (db six_agent))
            (_extract_keywords (lit "star star")) (index r) = 1.
Proof.
  split; [vm_compute; reflexivity|].
  eexists. split; [vm_compute; reflexivity|].
  split; vm_compute; reflexivity.
Qed.

(** * Score fusion *)

Lemma for_each_inv {S A : Type} (body : S -> A -> res S) (P : S -> Prop)
    (l : list A) (s s' : S) :
  (forall s a s', In a l -> P s -> body s a = Ok s' -> P s') ->
  P s -> for_each body l s = Ok s' -> P s'.
Proof.
  revert s. induction l as [|a l IH]; simpl; intros s Hstep Hs E.
  - now injection E as <-.
  - inv_bind E. apply (IH a0); [|eauto|assumption].
    intros s1 a1 s1' I. apply Hstep. now right.
Qed.

Lemma fused_ext (c : dict Z result) (f g : Z -> Q) :
  (forall idx, (f idx == g idx)%Q) -> fused c f -> fused c g.
Proof.
  intros E [ND F]. split; [assumption|]. intros idx. specialize (F idx).
  destruct (dict_get Z.eqb c idx) as [e|].
  - destruct F as (Ei & s & Es & Ef). split; [assumption|].
    exists s. split; [assumption|]. now rewrite <- E.
  - now rewrite <- E.
Qed.

Lemma ensure_entry_get (c : dict Z result) (r : result) :
  exists e,
    dict_get Z.eqb (ensure_entry c r) (index r) = Some e
    /\ match dict_get Z.eqb c (index r) with
       | Some e0 => e = e0 /\ ensure_entry c r = c
       | None => e = with_combined_score r 0
                 /\ ensure_entry c r
                    = dict_set Z.eqb c (index r) (with_combined_score r 0)
       end.
Proof.
  unfold ensure_entry.
  destruct (dict_get Z.eqb c (index r)) as [e0|] eqn:E.
  - exists e0. auto.
  - exists (with_combined_score r 0).
    rewrite (dict_get_set_same Z.eqb Z.eqb_eq). auto.
Qed.

Lemma ensure_entry_other (c : dict Z result) (r : result) (idx : Z) :
  idx <> index r ->
  dict_get Z.eqb (ensure_entry c r) idx = dict_get Z.eqb c idx.
Proof.
  intros N. unfold ensure_entry.
  destruct (dict_get Z.eqb c (index r)); [reflexivity|].
  now rewrite (dict_get_set_other Z.eqb Z.eqb_eq).
Qed.

Lemma ensure_entry_NoDup (c : dict Z result) (r : result) :
  NoDup (dict_keys c) -> NoDup (dict_keys (ensure_entry c r)).
Proof.
  intros ND. unfold ensure_entry.
  destruct (dict_get Z.eqb c (index r)); [assumption|].
  now apply (dict_set_NoDup Z.eqb Z.eqb_eq).
Qed.

(** One pass through a loop body: the score of the record's document grows
    by [score], nothing else changes. *)
Lemma add_score_fused (c : dict Z result) (f : Z -> Q) (r : result)
    (score : Q) :
  fused c f ->
  fused (add_score (ensure_entry c r) r score)
        (fun idx => if index r =? idx then (f idx + score)%Q else f idx).
Proof.
  intros [ND F].
  destruct (ensure_entry_get c r) as (e & Ee & Hc).
  unfold add_score. rewrite Ee. split.
  - apply (dict_set_NoDup Z.eqb Z.eqb_eq). now apply ensure_entry_NoDup.
  - intros idx. destruct (Z.eqb_spec (index r) idx) as [<-|N].
    + rewrite (dict_get_set_same Z.eqb Z.eqb_eq). simpl.
      specialize (F (index r)).
      destruct (dict_get Z.eqb c (index r)) as [e0|].
      * destruct Hc as [-> _]. destruct F as (Ei & s & Es & Ef).
        split; [assumption|]. eexists. split; [reflexivity|].
        unfold get_combined_score. rewrite Es. now rewrite Ef.
      * destruct Hc as [-> _]. split; [reflexivity|].
        eexists. split; [reflexivity|].
        unfold get_combined_score. simpl. now rewrite F.
    + rewrite (dict_get_set_other Z.eqb Z.eqb_eq) by congruence.
      rewrite ensure_entry_other by congruence. apply F.
Qed.

Lemma combine_vector_Ok (c c' : dict Z result) (r : result) :
  combine_vector c r = Ok c' ->
  c' = add_score (ensure_entry c r) r
         (1 / (distance r + 1) * weight_vector)%Q.
Proof.
  unfold combine_vector. intros E. inv_bind E.
  apply float_div_Ok in Ha. subst a. now injection E as <-.
Qed.

Lemma int_truediv_Ok (a b : Z) (q : Q) :
  int_truediv a b = Ok q -> q = (inject_Z a / inject_Z b)%Q /\ b <> 0.
Proof.
  unfold int_truediv. destruct (Z.eqb_spec b 0); [discriminate|].
  intros [= <-]. auto.
Qed.

Lemma combine_keyword_Ok (c c' : dict Z result) (r : result) :
  combine_keyword c r = Ok c' ->
  c' = add_score (ensure_entry c r) r
         (inject_Z (get_keyword_score r)
          / inject_Z (get_keyword_score r + 1) * weight_keyword)%Q.
Proof.
  unfold combine_keyword. intros E. inv_bind E.
  apply int_truediv_Ok in Ha as [-> _]. now injection E as <-.
Qed.

Lemma combine_vector_fused (v : list result) (c c' : dict Z result)
    (f : Z -> Q) :
  fused c f -> for_each combine_vector v c = Ok c' ->
  fused c' (fun idx => (f idx + vector_sum idx v)%Q).
Proof.
  revert c f. induction v as [|r v IH]; simpl; intros c f Hf E.
  - injection E as <-. revert Hf. apply fused_ext. intros idx. ring.
  - inv_bind E. apply combine_vector_Ok in Ha. subst a.
    apply (add_score_fused c f r) with (score := (1 / (distance r + 1) * weight_vector)%Q) in Hf.
    apply (IH _ _ Hf) in E. revert E. apply fused_ext. intros idx.
    unfold vector_sum, vector_contribution, Qdiv. cbn [fold_right].
    destruct (index r =? idx); cbv beta iota; ring.
Qed.

Lemma combine_keyword_fused (k : list result) (c c' : dict Z result)
    (f : Z -> Q) :
  fused c f -> for_each combine_keyword k c = Ok c' ->
  fused c' (fun idx => (f idx + keyword_sum idx k)%Q).
Proof.
  revert c f. induction k as [|r k IH]; simpl; intros c f Hf E.
  - injection E as <-. revert Hf. apply fused_ext. intros idx. ring.
  - inv_bind E. apply combine_keyword_Ok in Ha. subst a.
    apply (add_score_fused c f r) with
      (score := (inject_Z (get_keyword_score r)
                 / inject_Z (get_keyword_score r + 1) * weight_keyword)%Q)
      in Hf.
    apply (IH _ _ Hf) in E. revert E. apply fused_ext. intros idx.
    unfold keyword_sum, keyword_contribution. cbn [fold_right].
    rewrite inject_Z_plus. change (inject_Z 1) with 1%Q. unfold Qdiv.
    destruct (index r =? idx); cbv beta iota; ring.
Qed.

(** The fused score of every entry is the sum of the contributions of the
    two lists to its document. *)
Lemma combined_dict_fused (v k : list result) (c : dict Z result) :
  combined_dict v k = Ok c ->
  fused c (fun idx => (vector_sum idx v + keyword_sum idx k)%Q).
Proof.
  unfold combined_dict. intros E. inv_bind E.
  assert (F0 : fused [] (fun _ : Z => 0%Q)).
  { split; [constructor|]. intros idx. simpl. reflexivity. }
  apply (combine_vector_fused v _ _ _ F0) in Ha.
  apply (combine_keyword_fused k _ _ _ Ha) in E.
  revert E. apply fused_ext. intros idx. ring.
Qed.

Lemma combine_vector_adds : adds_score combine_vector.
Proof. intros c r c' E. apply combine_vector_Ok in E. eauto. Qed.

Lemma combine_keyword_adds : adds_score combine_keyword.
Proof. intros c r c' E. apply combine_keyword_Ok in E. eauto. Qed.

Lemma add_score_get_other (c : dict Z result) (r : result) (score : Q)
    (idx : Z) :
  idx <> index r ->
  dict_get Z.eqb (add_score (ensure_entry c r) r score) idx
  = dict_get Z.eqb c idx.
Proof.
  intros N. destruct (ensure_entry_get c r) as (e & Ee & _).
  unfold add_score. rewrite Ee.
  rewrite (dict_get_set_other Z.eqb Z.eqb_eq) by assumption.
  now apply ensure_entry_other.
Qed.

(** The entry of the record's document after one pass: the entry that was
    there, or else a copy of the record, with a new score. *)
Lemma add_score_get_same (c : dict Z result) (r : result) (score : Q) :
  exists s,
    dict_get Z.eqb (add_score (ensure_entry c r) r score) (index r)
    = Some (with_combined_score
              (match dict_get Z.eqb c (index r) with
               | Some e0 => e0
               | None => r
               end) s).
Proof.
  destruct (ensure_entry_get c r) as (e & Ee & Hc).
  unfold add_score. rewrite Ee.
  rewrite (dict_get_set_same Z.eqb Z.eqb_eq).
  destruct (dict_get Z.eqb c (index r)) as [e0|].
  - destruct Hc as [-> _]. eauto.
  - destruct Hc as [-> _]. eexists. reflexivity.
Qed.

Lemma for_each_keys (body : dict Z result -> result -> res (dict Z result))
    (l : list result) (c c' : dict Z result) (idx : Z) :
  adds_score body -> for_each body l c = Ok c' ->
  (dict_get Z.eqb c' idx <> None
   <-> dict_get Z.eqb c idx <> None \/ In idx (map index l)).
Proof.
  intros Hb. revert c. induction l as [|r l IH]; simpl; intros c E.
  - injection E as <-. tauto.
  - inv_bind E. apply Hb in Ha as (score & ->). rewrite (IH _ E).
    destruct (Z.eq_dec idx (index r)) as [->|N].
    + destruct (add_score_get_same c r score) as (s & ->).
      split; [auto|]. intros _. left. discriminate.
    + rewrite add_score_get_other by assumption.
      intuition congruence.
Qed.

Lemma combined_dict_keys (v k : list result) (c : dict Z result) (idx : Z) :
  combined_dict v k = Ok c ->
  (dict_get Z.eqb c idx <> None <-> In idx (map index v ++ map index k)).
Proof.
  unfold combined_dict. intros E. inv_bind E.
  rewrite (for_each_keys _ _ _ _ idx combine_keyword_adds E).
  rewrite (for_each_keys _ _ _ _ idx combine_vector_adds Ha).
  rewrite in_app_iff. simpl. tauto.
Qed.

(** ** Fusion does not raise on well-formed candidates *)

Lemma combine_vector_total (c : dict Z result) (r : result) :
  (0 <= distance r)%Q -> exists c', combine_vector c r = Ok c'.
Proof.
  intros Hd. unfold combine_vector.
  rewrite float_div_nonzero; [simpl; eauto|].
  intros E. lra.
Qed.

Lemma combine_keyword_total (c : dict Z result) (r : result) :
  0 <= get_keyword_score r -> exists c', combine_keyword c r = Ok c'.
Proof.
  intros Hs. unfold combine_keyword, int_truediv.
  destruct (Z.eqb_spec (get_keyword_score r + 1) 0); [lia|].
  simpl. eauto.
Qed.

Lemma for_each_total {S A : Type} (body : S -> A -> res S) (P : A -> Prop)
    (l : list A) (s : S) :
  (forall s a, P a -> exists s', body s a = Ok s') ->
  Forall P l -> exists s', for_each body l s = Ok s'.
Proof.
  intros Hb F. revert s. induction F as [|a l Pa F IH]; simpl; intros s.
  - eauto.
  - destruct (Hb s a Pa) as (s1 & ->). simpl. apply IH.
Qed.

Lemma combined_dict_total (v k : list result) :
  Forall (fun r => (0 <= distance r)%Q) v ->
  Forall (fun r => 0 <= get_keyword_score r) k ->
  exists c, combined_dict v k = Ok c.
Proof.
  intros Fv Fk. unfold combined_dict.
  destruct (for_each_total combine_vector _ v []
              (fun s a => combine_vector_total s a) Fv) as (c1 & ->).
  simpl.
  apply (for_each_total combine_keyword _ k c1
           (fun s a => combine_keyword_total s a) Fk).
Qed.

(** ** The sums of contributions *)

Lemma vector_contribution_nonneg (d : Q) :
  (0 <= d)%Q -> (0 <= vector_contribution d)%Q.
Proof.
  intros Hd. unfold vector_contribution, weight_vector, Qdiv.
  apply Qmult_le_0_compat; [discriminate|].
  apply Qmult_le_0_compat; [discriminate|].
  apply Qinv_le_0_compat. lra.
Qed.

Lemma keyword_contribution_nonneg (ks : Z) :
  0 <= ks -> (0 <= keyword_contribution ks)%Q.
Proof.
  intros Hs. unfold keyword_contribution, weight_keyword, Qdiv.
  assert (0 <= inject_Z ks)%Q.
  { change 0%Q with (inject_Z 0). now rewrite <- Zle_Qle. }
  apply Qmult_le_0_compat; [discriminate|].
  apply Qmult_le_0_compat; [assumption|].
  apply Qinv_le_0_compat. lra.
Qed.

Lemma vector_sum_nonneg (idx : Z) (v : list result) :
  Forall (fun r => (0 <= distance r)%Q) v -> (0 <= vector_sum idx v)%Q.
Proof.
  induction 1 as [|r v Hr _ IH]; simpl; [apply Qle_refl|].
  destruct (index r =? idx); [|assumption].
  apply vector_contribution_nonneg in Hr. lra.
Qed.

Lemma keyword_sum_nonneg (idx : Z) (k : list result) :
  Forall (fun r => 0 <= get_keyword_score r) k -> (0 <= keyword_sum idx k)%Q.
Proof.
  induction 1 as [|r k Hr _ IH]; simpl; [apply Qle_refl|].
  destruct (index r =? idx); [|assumption].
  apply keyword_contribution_nonneg in Hr. lra.
Qed.

Lemma vector_sum_notin (idx : Z) (v : list result) :
  ~ In idx (map index v) -> vector_sum idx v = 0%Q.
Proof.
  induction v as [|r v IH]; simpl; intros N; [reflexivity|].
  destruct (Z.eqb_spec (index r) idx); [tauto|]. apply IH. tauto.
Qed.

Lemma keyword_sum_notin (idx : Z) (k : list result) :
  ~ In idx (map index k) -> keyword_sum idx k = 0%Q.
Proof.
  induction k as [|r k IH]; simpl; intros N; [reflexivity|].
  destruct (Z.eqb_spec (index r) idx); [tauto|]. apply IH. tauto.
Qed.

Lemma without_notin (idx : Z) (l : list result) :
  ~ In idx (map index (without idx l)).
Proof.
  unfold without. rewrite in_map_iff. intros (r & E & I).
  apply filter_In in I as [_ I]. apply negb_true_iff, Z.eqb_neq in I.
  contradiction.
Qed.

Lemma without_Forall (P : result -> Prop) (idx : Z) (l : list result) :
  Forall P l -> Forall P (without idx l).
Proof.
  rewrite !Forall_forall. intros F r I. apply filter_In in I. now apply F.
Qed.

Lemma vector_sum_NoDup (idx : Z) (v : list result) :
  NoDup (map index v) ->
  (vector_sum idx v
   == match find_index idx v with
      | Some rv => vector_contribution (distance rv)
      | None => 0
      end)%Q.
Proof.
  unfold find_index.
  induction v as [|r v IH]; simpl; intros ND; [reflexivity|].
  inversion ND as [|? ? N ND']; subst.
  destruct (Z.eqb_spec (index r) idx) as [<-|Ne]; [|auto].
  rewrite (vector_sum_notin _ _ N). ring.
Qed.

Lemma keyword_sum_NoDup (idx : Z) (k : list result) :
  NoDup (map index k) ->
  (keyword_sum idx k
   == match find_index idx k with
      | Some rk => keyword_contribution (get_keyword_score rk)
      | None => 0
      end)%Q.
Proof.
  unfold find_index.
  induction k as [|r k IH]; simpl; intros ND; [reflexivity|].
  inversion ND as [|? ? N ND']; subst.
  destruct (Z.eqb_spec (index r) idx) as [<-|Ne]; [|auto].
  rewrite (keyword_sum_notin _ _ N). ring.
Qed.

Lemma sums_applicable (idx : Z) (v k : list result) :
  NoDup (map index v) -> NoDup (map index k) ->
  (vector_sum idx v + keyword_sum idx k
   == applicable_sum (find_index idx v) (find_index idx k))%Q.
Proof.
  intros Nv Nk.
  rewrite (vector_sum_NoDup idx v Nv), (keyword_sum_NoDup idx k Nk).
  unfold applicable_sum.
  destruct (find_index idx v), (find_index idx k); ring.
Qed.

Lemma fused_get (c : dict Z result) (f : Z -> Q) (idx : Z) (e : result) :
  fused c f -> dict_get Z.eqb c idx = Some e ->
  index e = idx /\ exists s, combined_score e = Some s /\ (s == f idx)%Q.
Proof.
  intros [_ F] E. specialize (F idx). now rewrite E in F.
Qed.

Lemma fused_value (c : dict Z result) (f : Z -> Q) (e : result) :
  fused c f -> In e (dict_values c) ->
  dict_get Z.eqb c (index e) = Some e
  /\ exists s, combined_score e = Some s /\ (s == f (index e))%Q.
Proof.
  intros Hf I. unfold dict_values in I.
  apply in_map_iff in I as ([idx e'] & <- & I). simpl.
  pose proof (In_dict_get Z.eqb Z.eqb_eq c idx e' (proj1 Hf) I) as G.
  destruct (fused_get c f idx e' Hf G) as (Ei & s & Es & Ef).
  subst idx. eauto.
Qed.

Lemma _combine_results_Ok (v k : list result) (top_k : Z) (out : list result) :
  _combine_results v k top_k = Ok out ->
  exists c, combined_dict v k = Ok c
            /\ forall r, In r out -> In r (dict_values c).
Proof.
  unfold _combine_results. intros E. inv_bind E. injection E as <-.
  exists a. split; [assumption|]. intros r I.
  apply py_slice_to_In in I. exact (proj1 (sorted_In _ _ _) I).
Qed.

(** C3, as the code has it: the fused score of every document of either
    list, and of every record that [_combine_results] returns, is the sum of
    one contribution per entry that names the document:
    0.7 * (1 / (distance + 1)) for every entry of the vector list, plus
    0.3 * (keyword_score / (keyword_score + 1)) for every entry of the
    keyword list.  When each list names the document at most once, this is
    the sum of the contributions that apply: one term per list that has the
    document. *)
Theorem combined_score_sum_over_entries (v k : list result) (top_k : Z)
    (out : list result) :
  _combine_results v k top_k = Ok out ->
  exists c,
    combined_dict v k = Ok c
    /\ (forall idx,
          In idx (map index v ++ map index k) ->
          exists e s,
            dict_get Z.eqb c idx = Some e
            /\ combined_score e = Some s
            /\ (s == vector_sum idx v + keyword_sum idx k)%Q)
    /\ (forall r,
          In r out ->
          In (index r) (map index v ++ map index k)
          /\ exists s,
               combined_score r = Some s
               /\ (s == vector_sum (index r) v + keyword_sum (index r) k)%Q)
    /\ (NoDup (map index v) -> NoDup (map index k) ->
        forall idx,
          (vector_sum idx v + keyword_sum idx k
           == applicable_sum (find_index idx v) (find_index idx k))%Q).
Proof.
  intros E.
  destruct (_combine_results_Ok v k top_k out E) as (c & Ec & Hout).
  pose proof (combined_dict_fused v k c Ec) as Hf.
  exists c. split; [assumption|]. split; [|split].
  - intros idx I. apply (combined_dict_keys v k c idx Ec) in I.
    destruct (dict_get Z.eqb c idx) as [e|] eqn:G; [|congruence].
    destruct (fused_get _ _ idx e Hf G) as (_ & s & Es & Ef).
    exists e, s. repeat split; assumption.
  - intros r I. apply Hout in I.
    destruct (fused_value _ _ r Hf I) as (G & s & Es & Ef). split.
    + apply (combined_dict_keys v k c (index r) Ec). congruence.
    + exists s. split; assumption.
  - intros Nv Nk idx. now apply sums_applicable.
Qed.

(** C8: a document of both lists gets a fused score at least as large as
    the one it gets when it is taken out of the keyword list, and as the one
    it gets when it is taken out of the vector list; distances and keyword
    scores are non-negative, as in the data model. *)
Theorem both_lists_score_ge (v k : list result) (idx : Z) :
  Forall (fun r => (0 <= distance r)%Q) v ->
  Forall (fun r => 0 <= get_keyword_score r) k ->
  In idx (map index v) -> In idx (map index k) ->
  exists c cv ck e ev ek,
    combined_dict v k = Ok c
    /\ combined_dict v (without idx k) = Ok cv
    /\ combined_dict (without idx v) k = Ok ck
    /\ dict_get Z.eqb c idx = Some e
    /\ dict_get Z.eqb cv idx = Some ev
    /\ dict_get Z.eqb ck idx = Some ek
    /\ (get_combined_score ev <= get_combined_score e)%Q
    /\ (get_combined_score ek <= get_combined_score e)%Q.
Proof.
  intros Fv Fk Iv Ik.
  destruct (combined_dict_total v k Fv Fk) as (c & Ec).
  destruct (combined_dict_total v (without idx k) Fv
              (without_Forall _ idx k Fk)) as (cv & Ecv).
  destruct (combined_dict_total (without idx v) k
              (without_Forall _ idx v Fv) Fk) as (ck & Eck).
  assert (G : forall a b d,
             combined_dict a b = Ok d ->
             In idx (map index a ++ map index b) ->
             exists e, dict_get Z.eqb d idx = Some e
                       /\ (get_combined_score e
                           == vector_sum idx a + keyword_sum idx b)%Q).
  { intros a b d Ed I. apply (combined_dict_keys a b d idx Ed) in I.
    destruct (dict_get Z.eqb d idx) as [e|] eqn:Ge; [|congruence].
    destruct (fused_get _ _ idx e (combined_dict_fused a b d Ed) Ge)
      as (_ & s & Es & Ef).
    exists e. split; [reflexivity|].
    unfold get_combined_score. now rewrite Es. }
  destruct (G v k c Ec) as (e & Ge & Se);
    [apply in_or_app; now left|].
  destruct (G v (without idx k) cv Ecv) as (ev & Gev & Sev);
    [apply in_or_app; now left|].
  destruct (G (without idx v) k ck Eck) as (ek & Gek & Sek);
    [apply in_or_app; now right|].
  exists c, cv, ck, e, ev, ek. repeat split; try assumption.
  - rewrite Se, Sev.
    rewrite (keyword_sum_notin idx _ (without_notin idx k)).
    pose proof (keyword_sum_nonneg idx k Fk). lra.
  - rewrite Se, Sek.
    rewrite (vector_sum_notin idx _ (without_notin idx v)).
    pose proof (vector_sum_nonneg idx v Fv). lra.
Qed.

Lemma combined_score_sum_over_entries_witness :
  _combine_results sample_vector_results sample_keyword_results 4
  = Ok sample_fused_results
  /\ exists c,
       combined_dict sample_vector_results sample_keyword_results = Ok c
       /\ (forall idx,
             In idx (map index sample_vector_results
                     ++ map index sample_keyword_results) ->
             exists e s,
               dict_get Z.eqb c idx = Some e
               /\ combined_score e = Some s
               /\ (s == vector_sum idx sample_vector_results
                        + keyword_sum idx sample_keyword_results)%Q)
       /\ (forall r,
             In r sample_fused_results ->
             In (index r) (map index sample_vector_results
                           ++ map index sample_keyword_results)
             /\ exists s,
                  combined_score r = Some s
                  /\ (s == vector_sum (index r) sample_vector_results
                           + keyword_sum (index r) sample_keyword_results)%Q)
       /\ (NoDup (map index sample_vector_results) ->
           NoDup (map index sample_keyword_results) ->
           forall idx,
             (vector_sum idx sample_vector_results
              + keyword_sum idx sample_keyword_results
              == applicable_sum (find_index idx sample_vector_results)
                   (find_index idx sample_keyword_results))%Q).
Proof.
  assert (E : _combine_results sample_vector_results sample_keyword_results 4
              = Ok sample_fused_results) by (vm_compute; reflexivity).
  exact (conj E
           (combined_score_sum_over_entries sample_vector_results
              sample_keyword_results 4 sample_fused_results E)).
Defined.

(** C3, as stated, fails: on a corpus of one song a hybrid retrieval with
    [top_k = 1] asks the index for three neighbours, the vector list names
    the padding label -1 twice, and the fused score of that document is
    twice the one contribution the claim gives it. *)
Lemma combined_score_counts_padding :
  search_similar (db padded_agent) [] (1 * 3) = Ok padded_vector_results
  /\ map index padded_vector_results = [0; -1; -1]
  /\ search_by_keywords (db padded_agent) (_extract_keywords (lit "moon"))
       (1 * 2) = Ok padded_keyword_results
  /\ _combine_results padded_vector_results padded_keyword_results (1 * 2)
     = Ok padded_fused_results
  /\ exists r s,
       In r padded_fused_results
       /\ index r = -1
       /\ combined_score r = Some s
       /\ (s == 2 * vector_contribution float32_max)%Q
       /\ ~ (s == applicable_sum
                    (find_index (-1) padded_vector_results)
                    (find_index (-1) padded_keyword_results))%Q.
Proof.
  split; [vm_compute; reflexivity|].
  split; [reflexivity|].
  split; [vm_compute; reflexivity|].
  split; [vm_compute; reflexivity|].
  eexists. eexists.
  split; [right; left; reflexivity|].
  split; [reflexivity|].
  split; [reflexivity|].
  split.
  - vm_compute. reflexivity.
  - vm_compute. discriminate.
Qed.

Lemma both_lists_score_ge_witness :
  Forall (fun r => (0 <= distance r)%Q) sample_vector_results
  /\ Forall (fun r => 0 <= get_keyword_score r) sample_keyword_results
  /\ In 1 (map index sample_vector_results)
  /\ In 1 (map index sample_keyword_results)
  /\ exists c cv ck e ev ek,
       combined_dict sample_vector_results sample_keyword_results = Ok c
       /\ combined_dict sample_vector_results
            (without 1 sample_keyword_results) = Ok cv
       /\ combined_dict (without 1 sample_vector_results)
            sample_keyword_results = Ok ck
       /\ dict_get Z.eqb c 1 = Some e
       /\ dict_get Z.eqb cv 1 = Some ev
       /\ dict_get Z.eqb ck 1 = Some ek
       /\ (get_combined_score ev <= get_combined_score e)%Q
       /\ (get_combined_score ek <= get_combined_score e)%Q.
Proof.
  assert (Fv : Forall (fun r => (0 <= distance r)%Q) sample_vector_results).
  { repeat constructor; simpl; discriminate. }
  assert (Fk : Forall (fun r => 0 <= get_keyword_score r)
                 sample_keyword_results).
  { repeat constructor; simpl; discriminate. }
  assert (Iv : In 1 (map index sample_vector_results)) by (simpl; auto).
  assert (Ik : In 1 (map index sample_keyword_results)) by (simpl; auto).
  exact (conj Fv (conj Fk (conj Iv (conj Ik
           (both_lists_score_ge sample_vector_results sample_keyword_results 1
              Fv Fk Iv Ik))))).
Defined.

(** * Candidates found by keyword search only *)

Section KeywordOnly.
Context `{Unicode}.

Lemma search_by_keywords_synthetic (self : DongyoVectorDB)
    (keywords : list str) (top_k : Z) (results : list result) :
  search_by_keywords self keywords top_k = Ok results ->
  Forall synthetic_distance results.
Proof.
  unfold search_by_keywords. destruct (negb (truthy keywords)).
  - intros [= <-]. constructor.
  - intros E. apply keyword_results_loop_spec in E.
    revert E. apply Forall_impl. intros r (Es & Ed & _).
    eexists. split; eassumption.
Qed.

Lemma combine_vector_origin (v k : list result) (c c' : dict Z result)
    (r : result) :
  In r v -> origin v k c -> combine_vector c r = Ok c' -> origin v k c'.
Proof.
  intros I O E. apply combine_vector_Ok in E. subst c'. intros idx e G.
  destruct (Z.eq_dec idx (index r)) as [->|N].
  - left. now apply in_map.
  - rewrite add_score_get_other in G by assumption. eauto.
Qed.

Lemma combine_keyword_origin (v k : list result) (c c' : dict Z result)
    (r : result) :
  In r k -> origin v k c -> combine_keyword c r = Ok c' -> origin v k c'.
Proof.
  intros I O E. apply combine_keyword_Ok in E. subst c'. intros idx e G.
  destruct (Z.eq_dec idx (index r)) as [->|N].
  - destruct (add_score_get_same c r
                (inject_Z (get_keyword_score r)
                 / inject_Z (get_keyword_score r + 1) * weight_keyword)%Q)
      as (s & G').
    rewrite G' in G. injection G as <-.
    destruct (dict_get Z.eqb c (index r)) as [e0|] eqn:G0.
    + destruct (O _ _ G0) as [?|(rk & Ik & Ed & Es)]; [now left|].
      right. exists rk. auto.
    + right. exists r. auto.
  - rewrite add_score_get_other in G by assumption. eauto.
Qed.

Lemma combined_dict_origin (v k : list result) (c : dict Z result) :
  combined_dict v k = Ok c -> origin v k c.
Proof.
  unfold combined_dict. intros E. inv_bind E.
  apply (for_each_inv combine_keyword (origin v k) k a c); [| |assumption].
  - intros s r s' I. now apply combine_keyword_origin.
  - apply (for_each_inv combine_vector (origin v k) v [] a); [| |assumption].
    + intros s r s' I. now apply combine_vector_origin.
    + intros idx e G. discriminate.
Qed.

(** C10: every candidate of keyword search carries the distance
    1 / (keyword_score + 1); and in a hybrid retrieval in which fusion ran,
    every returned record whose document is not among the vector results
    carries that distance, which is the key of the final sort. *)
Theorem keyword_only_synthetic_distance :
  (forall (self : DongyoVectorDB) (keywords : list str) (top_k : Z)
          (results : list result),
      search_by_keywords self keywords top_k = Ok results ->
      Forall synthetic_distance results)
  /\ (forall (self : RetrieverAgent) (search_query : str) (top_k : Z)
             (categories : option (dict str str))
             (query_embedding : list Q)
             (vector_results final_results : list result),
         client self search_query = Ok query_embedding ->
         search_similar (db self) query_embedding (top_k * 3)
         = Ok vector_results ->
         truthy (_extract_keywords search_query) = true ->
         retrieve self search_query top_k categories true = Ok final_results ->
         forall r,
           In r final_results ->
           ~ In (index r) (map index vector_results) ->
           synthetic_distance r).
Proof.
  split; [exact search_by_keywords_synthetic|].
  intros self q top_k cats emb vr final Hc Hv Hk E r Ir Nr.
  unfold retrieve in E. rewrite Hc in E. simpl in E.
  rewrite Hv in E. simpl in E. rewrite Hk in E.
  inv_bind E. inv_bind Ha. injection E as <-.
  apply py_slice_to_In in Ir.
  apply (proj1 (sorted_In _ _ _)) in Ir.
  assert (Ia : In r a).
  { destruct cats as [[|kv cats]|]; try assumption.
    now apply filter_by_categories_In in Ir. }
  destruct (_combine_results_Ok _ _ _ _ Ha) as (c & Ec & Hout).
  apply Hout in Ia.
  destruct (fused_value _ _ r (combined_dict_fused _ _ _ Ec) Ia) as (G & _).
  destruct (combined_dict_origin _ _ _ Ec _ _ G)
    as [?|(rk & Ik & Ed & Es)]; [contradiction|].
  apply search_by_keywords_synthetic in Ha0.
  rewrite Forall_forall in Ha0. destruct (Ha0 rk Ik) as (s & Hs & Hd).
  exists s. split; congruence.
Qed.
End KeywordOnly.

Lemma keyword_only_synthetic_distance_witness :
  client far_agent (lit "snow") = Ok []
  /\ search_similar (db far_agent) [] (1 * 3) = Ok far_vector_results
  /\ truthy (_extract_keywords (lit "snow")) = true
  /\ retrieve far_agent (lit "snow") 1 None true = Ok far_snow_result
  /\ map index far_vector_results = [0; 1; 2]
  /\ map index far_snow_result = [5]
  /\ Forall synthetic_distance far_snow_result.
Proof.
  assert (C : client far_agent (lit "snow") = Ok []) by reflexivity.
  assert (V : search_similar (db far_agent) [] (1 * 3) = Ok far_vector_results)
    by (vm_compute; reflexivity).
  assert (K : truthy (_extract_keywords (lit "snow")) = true)
    by (vm_compute; reflexivity).
  assert (E : retrieve far_agent (lit "snow") 1 None true = Ok far_snow_result)
    by (vm_compute; reflexivity).
  assert (Mv : map index far_vector_results = [0; 1; 2]) by reflexivity.
  assert (Mf : map index far_snow_result = [5]) by reflexivity.
  repeat (split; [assumption|]).
  rewrite Forall_forall. intros r Ir.
  apply (proj2 keyword_only_synthetic_distance far_agent (lit "snow") 1 None
           [] far_vector_results far_snow_result C V K E r Ir).
  rewrite Mv. apply (in_map index) in Ir. rewrite Mf in Ir.
  destruct Ir as [<-|[]]. simpl. intuition discriminate.
Defined.

(** * Document indices of the returned records *)

Section IndexBounds.
Context `{Unicode}.

Lemma lookup_song_Some (md : metadata_t) (idx : Z) (t : str * str * str) :
  lookup_song md idx = Ok (Some t) -> idx < song_count md.
Proof.
  destruct md as [titles lyrics_list|songs]; simpl.
  - destruct (Z.ltb_spec idx (len titles)); [auto|].
    intros E. discriminate.
  - destruct (Z.ltb_spec idx (len songs)); [auto|].
    intros E. discriminate.
Qed.

Lemma search_similar_loop_index (md : metadata_t) (raw : list (Q * Z))
    (results : list result) :
  search_similar_loop md raw = Ok results ->
  Forall (fun r => index r < song_count md /\ In (index r) (map snd raw))
         results.
Proof.
  revert results. induction raw as [|[d idx] raw IH]; simpl; intros results E.
  - injection E as <-. constructor.
  - inv_bind E. inv_bind E. injection E as <-.
    specialize (IH _ Ha0).
    assert (IH' : Forall (fun r => index r < song_count md
                                   /\ (idx = index r
                                       \/ In (index r) (map snd raw))) a0).
    { revert IH. apply Forall_impl. tauto. }
    destruct a as [[[t f] l]|]; [|assumption].
    constructor; [|assumption]. simpl. split; [|now left].
    now apply lookup_song_Some in Ha.
Qed.

(** X17: on a database built by [__init__], every record [retrieve] returns
    has an index below the number of songs; and the index is not negative
    provided the index search returns no negative label.  (It does return
    the label -1 when it finds fewer neighbours than it is asked for.) *)
Lemma retrieve_index_bounds (md : metadata_t)
    (search : list Q -> Z -> res (list (Q * Z)))
    (embed : str -> res (list Q)) (search_query : str) (top_k : Z)
    (categories : option (dict str str)) (use_hybrid : bool)
    (final_results : list result) :
  retrieve {| client := embed; db := DongyoVectorDB_init md search |}
    search_query top_k categories use_hybrid = Ok final_results ->
  Forall (fun r => index r < song_count md) final_results
  /\ ((forall e n raw, search e n = Ok raw -> Forall (fun p => 0 <= snd p) raw)
      -> Forall (fun r => 0 <= index r) final_results).
Proof.
  intros E. unfold retrieve in E. simpl in E.
  inv_bind E. inv_bind E. inv_bind E. injection E as <-.
  set (ok := fun r : result =>
               index r < song_count md
               /\ ((forall e n raw, search e n = Ok raw ->
                                    Forall (fun p => 0 <= snd p) raw)
                   -> 0 <= index r)).
  assert (Hv : Forall ok a0).
  { unfold search_similar in Ha0. simpl in Ha0. inv_bind Ha0.
    apply search_similar_loop_index in Ha0.
    revert Ha0. apply Forall_impl. intros r [L I]. split; [assumption|].
    intros P. apply P in Ha2. rewrite Forall_forall in Ha2.
    apply in_map_iff in I as (p & <- & I). now apply Ha2. }
  assert (Hc : Forall ok a1).
  { destruct use_hybrid; [|now injection Ha1 as <-].
    destruct (truthy (_extract_keywords search_query));
      [|now injection Ha1 as <-].
    inv_bind Ha1.
    destruct (search_by_keywords_init md search
                (_extract_keywords search_query) (top_k * 2))
      as (kr & Ekr & M & _).
    simpl in Ekr, M. rewrite Ekr in Ha2. injection Ha2 as <-.
    assert (Hk : Forall ok kr).
    { rewrite Forall_forall. intros r I. apply (in_map index) in I.
      rewrite M in I.
      destruct (truthy (_extract_keywords search_query)); [|destruct I].
      apply top_indices_of_keys in I.
      apply (score_keywords_keys_range (song_count md)) in I;
        [|apply init_keyword_index_wf].
      split; [lia|]. intros _. lia. }
    destruct (_combine_results_Ok _ _ _ _ Ha1) as (c & Ec & Hout).
    rewrite Forall_forall in *. intros r I. apply Hout in I.
    destruct (fused_value _ _ r (combined_dict_fused _ _ _ Ec) I) as (G & _).
    assert (K : In (index r) (map index a0 ++ map index kr)).
    { apply (combined_dict_keys a0 kr c (index r) Ec). congruence. }
    apply in_app_or in K as [K|K]; apply in_map_iff in K as (r' & Er & K).
    - destruct (Hv r' K) as [L P]. unfold ok. rewrite <- Er. auto.
    - destruct (Hk r' K) as [L P]. unfold ok. rewrite <- Er. auto. }
  assert (Hf : Forall ok
                 (py_slice_to
                    (sorted (fun a b => Qltb (distance a) (distance b))
                       match categories with
                       | Some ((_ :: _) as cats) =>
                           filter_by_categories a1 cats
                       | _ => a1
                       end) top_k)).
  { rewrite Forall_forall in *. intros r I.
    apply py_slice_to_In in I. apply (proj1 (sorted_In _ _ _)) in I.
    apply Hc. destruct categories as [[|kv cats]|]; try assumption.
    now apply filter_by_categories_In in I. }
  split.
  - revert Hf. apply Forall_impl. intros r [L _]. exact L.
  - intros P. revert Hf. apply Forall_impl. intros r [_ Q0]. auto.
Qed.
End IndexBounds.

(** * More on the keyword index *)

Section IndexContents.
Context `{Unicode}.

Lemma posting_of_set (kidx : dict str (list Z)) (word w : str) (p : list Z) :
  posting_of (dict_set str_eqb kidx word p) w
  = if str_eqb w word then p else posting_of kidx w.
Proof.
  unfold posting_of. destruct (str_eqb w word) eqn:E.
  - apply str_eqb_eq in E. subst.
    now rewrite (dict_get_set_same str_eqb str_eqb_eq).
  - rewrite (dict_get_set_other str_eqb str_eqb_eq); [reflexivity|].
    intros ->. rewrite (proj2 (str_eqb_eq word word) eq_refl) in E.
    discriminate.
Qed.

(** One pass of the inner loop adds the song to the posting list of the
    word, when the word has two characters or more. *)
Lemma index_word_posting (i : Z) (kidx : dict str (list Z)) (word w : str)
    (j : Z) :
  In j (posting_of (index_word i kidx word) w)
  <-> In j (posting_of kidx w) \/ (j = i /\ w = word /\ 2 <= len word).
Proof.
  unfold index_word.
  destruct (Z.leb_spec 2 (len word)) as [L|L]; [|intuition lia].
  set (kidx1 := match dict_get str_eqb kidx word with
                | None => dict_set str_eqb kidx word []
                | Some _ => kidx
                end).
  assert (P1 : forall w', posting_of kidx1 w' = posting_of kidx w').
  { intros w'. unfold kidx1.
    destruct (dict_get str_eqb kidx word) eqn:E; [reflexivity|].
    rewrite posting_of_set. destruct (str_eqb w' word) eqn:Ew; [|reflexivity].
    apply str_eqb_eq in Ew. subst. unfold posting_of. now rewrite E. }
  change (match dict_get str_eqb kidx1 word with
          | Some p => p
          | None => []
          end) with (posting_of kidx1 word).
  rewrite (P1 word).
  destruct (existsb (Z.eqb i) (posting_of kidx word)) eqn:Ei.
  - rewrite P1. apply existsb_Zeqb in Ei.
    split; [auto|]. intros [?|(-> & -> & _)]; assumption.
  - rewrite posting_of_set. destruct (str_eqb w word) eqn:Ew.
    + apply str_eqb_eq in Ew. subst w. rewrite in_app_iff. simpl.
      intuition.
    + rewrite P1. split; [auto|]. intros [?|(_ & -> & _)]; [assumption|].
      rewrite (proj2 (str_eqb_eq word word) eq_refl) in Ew. discriminate.
Qed.

Lemma index_words_posting (i : Z) (words : list str)
    (kidx : dict str (list Z)) (w : str) (j : Z) :
  In j (posting_of (fold_left (index_word i) words kidx) w)
  <-> In j (posting_of kidx w) \/ (j = i /\ In w words /\ 2 <= len w).
Proof.
  revert kidx. induction words as [|word words IH]; simpl; intros kidx.
  - tauto.
  - rewrite IH, index_word_posting. split.
    + intros [[?|(-> & -> & ?)]|(-> & ? & ?)]; auto.
    + intros [?|(-> & [->|?] & ?)]; auto.
Qed.

Lemma index_songs_posting (es : list (Z * str)) (kidx : dict str (list Z))
    (w : str) (j : Z) :
  In j (posting_of
          (fold_left
             (fun kidx '(i, text) =>
                fold_left (index_word i) (findall_words text) kidx)
             es kidx) w)
  <-> In j (posting_of kidx w)
      \/ (2 <= len w
          /\ exists text, In (j, text) es /\ In w (findall_words text)).
Proof.
  revert kidx. induction es as [|[i text] es IH]; simpl; intros kidx.
  - split; [auto|]. intros [?|(_ & ? & [] & _)]. assumption.
  - rewrite IH, index_words_posting. split.
    + intros [[?|(-> & ? & ?)]|(? & text' & ? & ?)]; eauto 8.
    + intros [?|(? & text' & [[= -> ->]|?] & ?)]; eauto 8.
Qed.

Lemma enumerate_from_In {A : Type} (s : Z) (l : list A) (j : Z) (a : A) :
  In (j, a) (enumerate_from s l)
  <-> s <= j /\ nth_error l (Z.to_nat (j - s)) = Some a.
Proof.
  revert s. induction l as [|x l IH]; intros s; simpl.
  - split; [intros []|]. intros [_ E]. destruct (Z.to_nat (j - s)); discriminate.
  - rewrite IH. split.
    + intros [[= -> ->]|[L E]].
      * rewrite Z.sub_diag. simpl. split; [lia|reflexivity].
      * split; [lia|].
        replace (Z.to_nat (j - s)) with (S (Z.to_nat (j - (s + 1)))) by lia.
        exact E.
    + intros [L E]. destruct (Z.eq_dec j s) as [->|N].
      * rewrite Z.sub_diag in E. simpl in E. left. congruence.
      * right. split; [lia|].
        replace (Z.to_nat (j - s)) with (S (Z.to_nat (j - (s + 1)))) in E
          by lia.
        exact E.
Qed.

(** X1: the keyword index is exactly the inverted index of the song texts: a
    song is in the posting list of a word if and only if the word has two
    characters or more and is one of the words of that song's text. *)
Theorem keyword_index_correct (md : metadata_t)
    (search : list Q -> Z -> res (list (Q * Z))) (w : str) (j : Z) :
  In j (posting_of (keyword_index (DongyoVectorDB_init md search)) w)
  <-> 2 <= len w
      /\ 0 <= j
      /\ exists text,
           nth_error (song_texts (DongyoVectorDB_init md search)) (Z.to_nat j)
           = Some text
           /\ In w (findall_words text).
Proof.
  simpl. unfold build_keyword_index, enumerate.
  rewrite index_songs_posting. unfold posting_of at 1. simpl. split.
  - intros [[]|(L & text & I & Iw)].
    apply enumerate_from_In in I as [Hj E]. rewrite Z.sub_0_r in E. eauto.
  - intros (L & Hj & text & E & Iw). right. split; [assumption|].
    exists text. split; [|assumption].
    apply enumerate_from_In. rewrite Z.sub_0_r. auto.
Qed.

(** The shape of the posting lists while song [b] is being indexed. *)
Definition postings_ascending (b : Z) (kidx : dict str (list Z)) : Prop :=
  forall w p,
    dict_get str_eqb kidx w = Some p ->
    StronglySorted Z.lt p /\ Forall (fun x => x <= b) p
    /\ p <> [] /\ 2 <= len w.

Lemma StronglySorted_snoc (p : list Z) (i : Z) :
  StronglySorted Z.lt p -> Forall (fun x => x < i) p ->
  StronglySorted Z.lt (p ++ [i]).
Proof.
  induction 1 as [|a p S IH F]; simpl; intros B.
  - repeat constructor.
  - inversion B as [|? ? Ha B']; subst. constructor; [auto|].
    apply Forall_app. split; [assumption|]. now repeat constructor.
Qed.

Lemma postings_ascending_set (b : Z) (kidx : dict str (list Z)) (w : str)
    (p : list Z) :
  postings_ascending b kidx ->
  StronglySorted Z.lt p -> Forall (fun x => x <= b) p -> p <> [] ->
  2 <= len w ->
  postings_ascending b (dict_set str_eqb kidx w p).
Proof.
  intros W S F N L w' p' E.
  destruct (str_eqb w' w) eqn:Ew.
  - apply str_eqb_eq in Ew. subst w'.
    rewrite (dict_get_set_same str_eqb str_eqb_eq) in E.
    injection E as <-. auto.
  - rewrite (dict_get_set_other str_eqb str_eqb_eq) in E; [eauto|].
    intros ->. rewrite (proj2 (str_eqb_eq w w) eq_refl) in Ew. discriminate.
Qed.

Lemma index_word_ascending (i : Z) (kidx : dict str (list Z)) (word : str) :
  postings_ascending i kidx -> postings_ascending i (index_word i kidx word).
Proof.
  intros W. unfold index_word.
  destruct (Z.leb_spec 2 (len word)) as [L|L]; [|assumption].
  destruct (dict_get str_eqb kidx word) as [p|] eqn:E.
  - rewrite E. destruct (W _ _ E) as (S & F & N & _).
    destruct (existsb (Z.eqb i) p) eqn:Ei; [assumption|].
    apply existsb_Zeqb_false in Ei.
    apply postings_ascending_set; try assumption.
    + apply StronglySorted_snoc; [assumption|].
      rewrite Forall_forall in *. intros x Hx.
      specialize (F x Hx). assert (x <> i) by congruence. lia.
    + apply Forall_app. split; [assumption|].
      repeat constructor. lia.
    + destruct p; discriminate.
  - rewrite (dict_get_set_same str_eqb str_eqb_eq). simpl.
    intros w p Ew.
    destruct (str_eqb w word) eqn:Eq.
    + apply str_eqb_eq in Eq. subst w.
      rewrite (dict_get_set_same str_eqb str_eqb_eq) in Ew.
      injection Ew as <-.
      repeat split; [repeat constructor|repeat constructor; lia
                    |discriminate|assumption].
    + assert (Nw : w <> word).
      { intros ->. rewrite (proj2 (str_eqb_eq word word) eq_refl) in Eq.
        discriminate. }
      rewrite !(dict_get_set_other str_eqb str_eqb_eq) in Ew by assumption.
      eauto.
Qed.

Lemma postings_ascending_mono (b b' : Z) (kidx : dict str (list Z)) :
  b <= b' -> postings_ascending b kidx -> postings_ascending b' kidx.
Proof.
  intros L W w p E. destruct (W w p E) as (S & F & N & Lw).
  repeat split; try assumption.
  revert F. apply Forall_impl. intros x. lia.
Qed.

Lemma index_songs_ascending (texts : list str) (s : Z)
    (kidx : dict str (list Z)) :
  postings_ascending s kidx ->
  postings_ascending (s + len texts)
    (fold_left
       (fun kidx '(i, text) =>
          fold_left (index_word i) (findall_words text) kidx)
       (enumerate_from s texts) kidx).
Proof.
  revert s kidx. induction texts as [|text texts IH]; simpl; intros s kidx W.
  - apply (postings_ascending_mono s); [unfold len; simpl; lia|assumption].
  - rewrite len_cons. replace (s + (len texts + 1)) with (s + 1 + len texts)
      by lia.
    apply IH. apply (postings_ascending_mono s); [lia|].
    assert (G : forall words d,
               postings_ascending s d ->
               postings_ascending s (fold_left (index_word s) words d)).
    { induction words as [|w words IHw]; simpl; intros d Wd; [assumption|].
      apply IHw. now apply index_word_ascending. }
    now apply G.
Qed.

(** X2: every posting list of the keyword index is filed under a word of two
    characters or more, is not empty, lists songs of the corpus only, and
    lists them in strictly ascending order. *)
Theorem keyword_index_postings_ascending (md : metadata_t)
    (search : list Q -> Z -> res (list (Q * Z))) (w : str) (p : list Z) :
  dict_get str_eqb (keyword_index (DongyoVectorDB_init md search)) w = Some p ->
  2 <= len w /\ p <> [] /\ StronglySorted Z.lt p
  /\ Forall (fun i => 0 <= i < song_count md) p.
Proof.
  intros E.
  destruct (init_keyword_index_wf md search w p E) as [_ R].
  simpl in E. unfold build_keyword_index, enumerate in E.
  assert (W0 : postings_ascending 0 []).
  { intros w' p' E'. discriminate. }
  destruct (index_songs_ascending (build_song_texts md) 0 [] W0 w p E)
    as (S & _ & N & L).
  auto.
Qed.
End IndexContents.

Lemma keyword_index_postings_ascending_witness :
  dict_get str_eqb (keyword_index (DongyoVectorDB_init six_songs six_search))
    (lit "la") = Some [0; 1; 2; 3; 4; 5]
  /\ 2 <= len (lit "la") /\ [0; 1; 2; 3; 4; 5] <> []
  /\ StronglySorted Z.lt [0; 1; 2; 3; 4; 5]
  /\ Forall (fun i => 0 <= i < song_count six_songs) [0; 1; 2; 3; 4; 5].
Proof.
  assert (E : dict_get str_eqb
                (keyword_index (DongyoVectorDB_init six_songs six_search))
                (lit "la") = Some [0; 1; 2; 3; 4; 5])
    by (vm_compute; reflexivity).
  exact (conj E (keyword_index_postings_ascending six_songs six_search
                   (lit "la") [0; 1; 2; 3; 4; 5] E)).
Defined.

(** * Keyword extraction *)

Section ExtractFacts.
Context `{Unicode}.

Lemma findall_words_from_chars (cur s : str) :
  Forall (fun c => is_word c = true) cur ->
  Forall (fun w => w <> [] /\ Forall (fun c => is_word c = true) w)
         (findall_words_from cur s).
Proof.
  revert cur. induction s as [|c s IH]; simpl; intros cur F.
  - destruct cur as [|x cur]; constructor; [|constructor].
    split.
    + intros E. apply (f_equal (@length char)) in E.
      rewrite length_rev in E. discriminate.
    + now apply Forall_rev.
  - destruct (is_word c) eqn:Ec.
    + apply IH. now constructor.
    + destruct cur as [|x cur]; [apply IH; constructor|].
      constructor; [|apply IH; constructor].
      split.
      * intros E. apply (f_equal (@length char)) in E.
        rewrite length_rev in E. discriminate.
      * now apply Forall_rev.
Qed.

(** X3: [_extract_keywords] returns at most ten keywords; each of them is a
    word of the lower-cased text, has two characters or more, all of them
    word characters, and is not a stop word. *)
Theorem extract_keywords_shape (text : str) :
  len (_extract_keywords text) <= 10
  /\ Forall
       (fun w =>
          In w (findall_words (lower text))
          /\ 2 <= len w
          /\ Forall (fun c => is_word c = true) w
          /\ ~ In w stopwords)
       (_extract_keywords text).
Proof.
  unfold _extract_keywords. split; [apply py_slice_to_len; lia|].
  rewrite Forall_forall. intros w I.
  apply py_slice_to_In in I. apply filter_In in I as [I E].
  apply andb_true_iff in E as [L S]. apply Z.leb_le in L.
  apply negb_true_iff in S.
  repeat split; try assumption.
  - pose proof (findall_words_from_chars [] (lower text) (Forall_nil _)) as F.
    rewrite Forall_forall in F. now apply F in I.
  - intros Hw. assert (T : existsb (str_eqb w) stopwords = true).
    { apply existsb_exists. exists w. split; [assumption|].
      now apply str_eqb_eq. }
    congruence.
Qed.
End ExtractFacts.

(** * More on [search_similar] *)

Section SimilarFacts.
Context `{Unicode}.

Lemma py_getitem_raises {A : Type} (l : list A) (i : Z) (e : exn) :
  py_getitem l i = Raise e -> e = IndexError.
Proof.
  unfold py_getitem.
  destruct ((if i <? 0 then i + len l else i) <? 0); [congruence|].
  destruct (nth_error l _); [discriminate|congruence].
Qed.

Lemma py_getitem_below {A : Type} (l : list A) (i : Z) :
  i < - len l -> py_getitem l i = Raise IndexError.
Proof.
  intros L. unfold py_getitem. pose proof (len_nonneg l).
  destruct (Z.ltb_spec i 0); [|lia].
  destruct (Z.ltb_spec (i + len l) 0); [reflexivity|lia].
Qed.

Lemma lookup_song_raises (md : metadata_t) (idx : Z) (e : exn) :
  lookup_song md idx = Raise e -> e = IndexError.
Proof.
  destruct md as [titles lyrics_list|songs]; simpl.
  - destruct (idx <? len titles); [|discriminate].
    destruct (py_getitem titles idx) eqn:Et; simpl.
    + destruct (idx <? len lyrics_list); [|discriminate].
      destruct (py_getitem lyrics_list idx) eqn:El; simpl; [discriminate|].
      intros [= <-]. now apply py_getitem_raises in El.
    + intros [= <-]. now apply py_getitem_raises in Et.
  - destruct (idx <? len songs); [|discriminate].
    destruct (py_getitem songs idx) eqn:Es; simpl; [discriminate|].
    intros [= <-]. now apply py_getitem_raises in Es.
Qed.

Lemma lookup_song_below (md : metadata_t) (idx : Z) :
  idx < - song_count md -> lookup_song md idx = Raise IndexError.
Proof.
  intros L. destruct md as [titles lyrics_list|songs]; simpl in *.
  - pose proof (len_nonneg titles).
    destruct (Z.ltb_spec idx (len titles)); [|lia].
    now rewrite py_getitem_below.
  - pose proof (len_nonneg songs).
    destruct (Z.ltb_spec idx (len songs)); [|lia].
    now rewrite py_getitem_below.
Qed.

Lemma lookup_song_beyond (md : metadata_t) (idx : Z) :
  song_count md <= idx -> lookup_song md idx = Ok None.
Proof.
  intros L. destruct md as [titles lyrics_list|songs]; simpl in *.
  - destruct (Z.ltb_spec idx (len titles)); [lia|reflexivity].
  - destruct (Z.ltb_spec idx (len songs)); [lia|reflexivity].
Qed.

Lemma search_similar_loop_raises (md : metadata_t) (raw : list (Q * Z))
    (e : exn) :
  search_similar_loop md raw = Raise e -> e = IndexError.
Proof.
  induction raw as [|[d idx] raw IH]; simpl; [discriminate|].
  destruct (lookup_song md idx) as [o|e'] eqn:El; simpl.
  - destruct (search_similar_loop md raw) as [rest|e'']; simpl;
      [discriminate|].
    intros [= <-]. now apply IH.
  - intros [= <-]. now apply lookup_song_raises in El.
Qed.

Lemma search_similar_loop_shape (md : metadata_t) (raw : list (Q * Z)) :
  Forall (fun p => 0 <= snd p) raw ->
  exists results,
    search_similar_loop md raw = Ok results
    /\ map (fun r => (distance r, index r)) results
       = filter (fun p => snd p <? song_count md) raw.
Proof.
  induction 1 as [|[d idx] raw Hp F IH]; simpl.
  - exists []. auto.
  - destruct IH as (rest & -> & M). simpl in Hp.
    destruct (Z.ltb_spec idx (song_count md)) as [L|L].
    + destruct (lookup_song_ok md idx (conj Hp L)) as ([[t f] l] & ->).
      simpl. eexists. split; [reflexivity|]. simpl. now rewrite M.
    + rewrite lookup_song_beyond by assumption. simpl. eauto.
Qed.

(** X4: when the index search returns no negative label, [search_similar]
    does not raise and returns, in the order of the index search, one record
    for every neighbour whose label is below the number of songs, with the
    distance and the label of that neighbour; labels at or above the number
    of songs are dropped. *)
Theorem search_similar_keeps_labels_in_range (self : DongyoVectorDB)
    (query_embedding : list Q) (top_k : Z) (raw : list (Q * Z)) :
  index_search self query_embedding top_k = Ok raw ->
  Forall (fun p => 0 <= snd p) raw ->
  exists results,
    search_similar self query_embedding top_k = Ok results
    /\ map (fun r => (distance r, index r)) results
       = filter (fun p => snd p <? song_count (metadata self)) raw.
Proof.
  intros E F. unfold search_similar. rewrite E. simpl.
  destruct (search_similar_loop_shape (metadata self) raw F)
    as (results & El & M).
  exists results. split; assumption.
Qed.

(** X5: a label below minus the number of songs makes [search_similar]
    raise [IndexError]. *)
Theorem search_similar_label_below_range (self : DongyoVectorDB)
    (query_embedding : list Q) (top_k : Z) (raw : list (Q * Z)) :
  index_search self query_embedding top_k = Ok raw ->
  Exists (fun p => snd p < - song_count (metadata self)) raw ->
  search_similar self query_embedding top_k = Raise IndexError.
Proof.
  intros E X. unfold search_similar. rewrite E. simpl. clear E.
  induction X as [[d idx] raw Hp|[d idx] raw X IH]; simpl.
  - simpl in Hp. now rewrite lookup_song_below.
  - destruct (lookup_song (metadata self) idx) as [o|e] eqn:El; simpl.
    + now rewrite IH.
    + apply lookup_song_raises in El. now subst.
Qed.
End SimilarFacts.

Lemma search_similar_keeps_labels_in_range_witness :
  index_search (db six_agent) [] 3
  = Ok [((1 # 10)%Q, 0); ((2 # 10)%Q, 1); ((3 # 10)%Q, 2)]
  /\ Forall (fun p : Q * Z => 0 <= snd p)
       [((1 # 10)%Q, 0); ((2 # 10)%Q, 1); ((3 # 10)%Q, 2)]
  /\ exists results,
       search_similar (db six_agent) [] 3 = Ok results
       /\ map (fun r => (distance r, index r)) results
          = filter (fun p => snd p <? song_count (metadata (db six_agent)))
              [((1 # 10)%Q, 0); ((2 # 10)%Q, 1); ((3 # 10)%Q, 2)].
Proof.
  assert (E : index_search (db six_agent) [] 3
              = Ok [((1 # 10)%Q, 0); ((2 # 10)%Q, 1); ((3 # 10)%Q, 2)])
    by reflexivity.
  assert (F : Forall (fun p : Q * Z => 0 <= snd p)
                [((1 # 10)%Q, 0); ((2 # 10)%Q, 1); ((3 # 10)%Q, 2)])
    by (repeat constructor; simpl; lia).
  exact (conj E (conj F
           (search_similar_keeps_labels_in_range (db six_agent) [] 3 _ E F))).
Defined.

Lemma search_similar_label_below_range_witness :
  index_search
    (DongyoVectorDB_init one_song (fun _ _ => Ok [(0%Q, 0); (1%Q, -2)])) [] 2
  = Ok [(0%Q, 0); (1%Q, -2)]
  /\ Exists (fun p : Q * Z => snd p < - song_count one_song)
       [(0%Q, 0); (1%Q, -2)]
  /\ search_similar
       (DongyoVectorDB_init one_song (fun _ _ => Ok [(0%Q, 0); (1%Q, -2)]))
       [] 2
     = Raise IndexError.
Proof.
  assert (E : index_search
                (DongyoVectorDB_init one_song
                   (fun _ _ => Ok [(0%Q, 0); (1%Q, -2)])) [] 2
              = Ok [(0%Q, 0); (1%Q, -2)]) by reflexivity.
  assert (X : Exists (fun p : Q * Z => snd p < - song_count one_song)
                [(0%Q, 0); (1%Q, -2)]).
  { apply Exists_cons_tl. apply Exists_cons_hd. vm_compute. reflexivity. }
  exact (conj E (conj X
           (search_similar_label_below_range
              (DongyoVectorDB_init one_song
                 (fun _ _ => Ok [(0%Q, 0); (1%Q, -2)])) [] 2 _ E X))).
Defined.

(** * More on keyword search *)

Lemma py_slice_to_firstn {A : Type} (l : list A) (k : Z) :
  0 <= k -> py_slice_to l k = firstn (Z.to_nat k) l.
Proof.
  intros Hk. unfold py_slice_to. destruct (Z.leb_spec 0 k); [reflexivity|lia].
Qed.

Lemma StronglySorted_app_cross {A : Type} (R : A -> A -> Prop)
    (l1 l2 : list A) (a b : A) :
  StronglySorted R (l1 ++ l2) -> In a l1 -> In b l2 -> R a b.
Proof.
  induction l1 as [|x l1 IH]; simpl; intros S Ia Ib; [destruct Ia|].
  inversion S as [|? ? S' F]; subst. destruct Ia as [->|Ia]; [|auto].
  rewrite Forall_forall in F. apply F. apply in_or_app. now right.
Qed.

Section KeywordSearchMore.
Context `{Unicode}.
Variable md : metadata_t.
Variable search : list Q -> Z -> res (list (Q * Z)).

Let self : DongyoVectorDB := DongyoVectorDB_init md search.

Lemma scores_ranking_sorted (scores : dict Z Z) :
  StronglySorted (fun a b => snd b <= snd a)
    (sorted (fun a b => snd b <? snd a) scores).
Proof.
  apply sorted_sorted.
  - intros a b c. lia.
  - intros a b E. apply Z.ltb_lt in E. lia.
  - intros a b E. apply Z.ltb_ge in E. lia.
Qed.

Lemma top_indices_of_firstn (keywords : list str) (top_k : Z) :
  1 <= top_k ->
  top_indices_of self keywords top_k
  = map fst
      (firstn (Z.to_nat top_k)
         (sorted (fun a b => snd b <? snd a)
            (score_keywords (keyword_index self) (map lower keywords)))).
Proof.
  intros Hk. unfold top_indices_of, most_common.
  destruct (Z.leb_spec (top_k * 2) 0); [lia|].
  rewrite py_slice_to_firstn by lia.
  rewrite firstn_map, firstn_firstn. f_equal. f_equal. lia.
Qed.

Lemma no_keywords_no_match (keywords : list str) :
  truthy keywords = false ->
  first_match_order (keyword_index self) keywords = [].
Proof.
  destruct keywords; [reflexivity|discriminate].
Qed.

(** X6: for [top_k >= 1] the number of candidates keyword search returns is
    [top_k] or the number of songs matched by some keyword, whichever is
    smaller. *)
Theorem search_by_keywords_count (keywords : list str) (top_k : Z) :
  1 <= top_k ->
  exists results,
    search_by_keywords self keywords top_k = Ok results
    /\ len results
       = Z.min top_k (len (first_match_order (keyword_index self) keywords)).
Proof.
  intros Hk.
  destruct (search_by_keywords_init md search keywords top_k)
    as (results & E & M & _).
  fold self in E, M. exists results. split; [exact E|].
  rewrite <- (len_map index), M.
  destruct (truthy keywords) eqn:Et.
  - rewrite top_indices_of_firstn by assumption.
    rewrite <- counter_keys_score_keywords.
    unfold len, dict_keys.
    rewrite !length_map, length_firstn, sorted_length. lia.
  - rewrite no_keywords_no_match by assumption. unfold len. simpl. lia.
Qed.

(** X7: keyword search returns the best matches: a matched song that is not
    returned matches no more keywords than any candidate that is. *)
Theorem search_by_keywords_best (keywords : list str) (top_k : Z) :
  1 <= top_k ->
  exists results,
    search_by_keywords self keywords top_k = Ok results
    /\ forall r j,
         In r results ->
         In j (first_match_order (keyword_index self) keywords) ->
         ~ In j (map index results) ->
         matching_keywords (keyword_index self) keywords j
         <= get_keyword_score r.
Proof.
  intros Hk.
  destruct (search_by_keywords_init md search keywords top_k)
    as (results & E & M & F).
  fold self in E, M, F. exists results. split; [exact E|].
  intros r j Ir Ij Nj.
  destruct (truthy keywords) eqn:Et.
  2:{ rewrite no_keywords_no_match in Ij by assumption. destruct Ij. }
  rewrite top_indices_of_firstn in M by assumption.
  set (scores := score_keywords (keyword_index self) (map lower keywords))
    in *.
  set (ranking := sorted (fun a b => snd b <? snd a) scores) in *.
  pose proof (score_keywords_wf (keyword_index self) (map lower keywords))
    as SW.
  fold scores in SW.
  pose proof (init_keyword_index_wf md search) as W. fold self in W.
  rewrite <- counter_keys_score_keywords in Ij. fold scores in Ij.
  unfold dict_keys in Ij. apply in_map_iff in Ij as ([j' c] & Ej & Ij).
  simpl in Ej. subst j'.
  assert (Ib : In (j, c) (skipn (Z.to_nat top_k) ranking)).
  { assert (I' : In (j, c) ranking) by (apply sorted_In; assumption).
    rewrite <- (firstn_skipn (Z.to_nat top_k) ranking) in I'.
    apply in_app_or in I' as [I'|I']; [|assumption].
    exfalso. apply Nj. rewrite M.
    now apply (in_map fst) in I'. }
  assert (Ia : In (index r) (map index results)) by now apply in_map.
  rewrite M in Ia. apply in_map_iff in Ia as (a & Ea & Ia).
  pose proof (scores_ranking_sorted scores) as S. fold ranking in S.
  rewrite <- (firstn_skipn (Z.to_nat top_k) ranking) in S.
  pose proof (StronglySorted_app_cross _ _ _ a (j, c) S Ia Ib) as L.
  simpl in L.
  assert (Ia' : In a scores).
  { apply (sorted_In (fun a b => snd b <? snd a)). fold ranking.
    rewrite <- (firstn_skipn (Z.to_nat top_k) ranking).
    apply in_or_app. now left. }
  destruct (scores_wf_get scores a SW Ia') as [Ga _].
  destruct (scores_wf_get scores (j, c) SW Ij) as [Gj _]. simpl in Gj.
  rewrite Forall_forall in F. destruct (F r Ir) as (Es & _).
  unfold get_keyword_score. rewrite Es. fold scores.
  rewrite <- (counter_get_score_keywords _ _ keywords j W). fold scores.
  rewrite Gj, <- Ea, Ga. exact L.
Qed.

(** X8: keyword search never returns the same song twice. *)
Theorem search_by_keywords_distinct (keywords : list str) (top_k : Z) :
  exists results,
    search_by_keywords self keywords top_k = Ok results
    /\ NoDup (map index results).
Proof.
  destruct (search_by_keywords_init md search keywords top_k)
    as (results & E & M & _).
  fold self in E, M. exists results. split; [exact E|].
  rewrite M. destruct (truthy keywords); [|constructor].
  unfold top_indices_of.
  set (scores := score_keywords (keyword_index self) (map lower keywords)).
  destruct (py_slice_to_prefix (map fst (most_common scores (top_k * 2)))
              top_k) as (rest & P).
  assert (N : NoDup (map fst (most_common scores (top_k * 2)))).
  { unfold most_common. destruct (top_k * 2 <=? 0); [constructor|].
    assert (NL : NoDup (map fst (sorted (fun a b => snd b <? snd a) scores))).
    { apply (Permutation_NoDup
               (l := map fst scores)).
      - apply Permutation_map. symmetry. apply sorted_perm.
      - apply (score_keywords_wf (keyword_index self) (map lower keywords)). }
    rewrite <- (firstn_skipn (Z.to_nat (top_k * 2))
                  (sorted (fun a b => snd b <? snd a) scores)) in NL.
    rewrite map_app in NL. now apply NoDup_app_remove_r in NL. }
  rewrite P in N. now apply NoDup_app_remove_r in N.
Qed.
End KeywordSearchMore.

Lemma search_by_keywords_count_witness :
  1 <= 2
  /\ exists results,
       search_by_keywords (DongyoVectorDB_init six_songs six_search)
         [lit "la"] 2 = Ok results
       /\ len results
          = Z.min 2
              (len (first_match_order
                      (keyword_index (DongyoVectorDB_init six_songs six_search))
                      [lit "la"])).
Proof.
  assert (K : 1 <= 2) by lia.
  exact (conj K (search_by_keywords_count six_songs six_search [lit "la"] 2 K)).
Defined.

Lemma search_by_keywords_best_witness :
  1 <= 1
  /\ exists results,
       search_by_keywords (DongyoVectorDB_init six_songs six_search)
         [lit "la"; lit "star"] 1 = Ok results
       /\ forall r j,
            In r results ->
            In j (first_match_order
                    (keyword_index (DongyoVectorDB_init six_songs six_search))
                    [lit "la"; lit "star"]) ->
            ~ In j (map index results) ->
            matching_keywords
              (keyword_index (DongyoVectorDB_init six_songs six_search))
              [lit "la"; lit "star"] j
            <= get_keyword_score r.
Proof.
  assert (K : 1 <= 1) by lia.
  exact (conj K (search_by_keywords_best six_songs six_search
                   [lit "la"; lit "star"] 1 K)).
Defined.

(** * More on the category filter *)

Section FilterMore.
Context `{Unicode}.

Lemma filter_filter_same {A : Type} (f : A -> bool) (l : list A) :
  filter f (filter f l) = filter f l.
Proof.
  induction l as [|a l IH]; simpl; [reflexivity|].
  destruct (f a) eqn:E; simpl; [rewrite E; f_equal|]; assumption.
Qed.

(** X9: filtering twice by the same categories is filtering once. *)
Theorem filter_by_categories_idempotent (results : list result)
    (categories : dict str str) :
  filter_by_categories (filter_by_categories results categories) categories
  = filter_by_categories results categories.
Proof.
  destruct (filter_by_categories_cases results categories) as [E|[E N]];
    rewrite E; [exact E|].
  destruct (filter_by_categories_cases
              (filter (matched (category_keywords_of categories)) results)
              categories) as [E'|[E' _]]; rewrite E'; [reflexivity|].
  apply filter_filter_same.
Qed.

Lemma blank_values_no_keywords (categories : dict str str) :
  Forall (fun kv => strip (snd kv) = []) categories ->
  category_keywords_of categories = [].
Proof.
  unfold category_keywords_of.
  induction 1 as [|[k v] cats Hv _ IH]; simpl in *; [reflexivity|].
  rewrite Hv. simpl. rewrite andb_false_r. exact IH.
Qed.

(** X10: category values made of white space only are no constraint: when
    every value is empty once stripped, the filter returns its input
    unchanged. *)
Theorem filter_by_categories_blank_values (results : list result)
    (categories : dict str str) :
  Forall (fun kv => strip (snd kv) = []) categories ->
  filter_by_categories results categories = results.
Proof.
  intros B. unfold filter_by_categories.
  rewrite (blank_values_no_keywords _ B). simpl.
  now destruct (negb (truthy categories)
                || negb (existsb truthy (dict_values categories))).
Qed.

Lemma category_keywords_truthy (categories : dict str str) :
  category_keywords_of categories <> [] ->
  truthy categories = true
  /\ existsb truthy (dict_values categories) = true.
Proof.
  unfold category_keywords_of, dict_values.
  induction categories as [|[k v] cats IH]; simpl; [congruence|].
  intros N. split; [reflexivity|].
  destruct (truthy v) eqn:Ev; simpl in *; [reflexivity|].
  now apply IH in N.
Qed.

(** X11: as soon as one candidate matches, the filter returns the matching
    candidates and only them, in their order: the candidates whose
    searchable text contains the lower-cased form of a category value that
    is not blank. *)
Theorem filter_by_categories_selects (results : list result)
    (categories : dict str str) :
  (exists r, In r results
             /\ matched (category_keywords_of categories) r = true) ->
  filter_by_categories results categories
  = filter (matched (category_keywords_of categories)) results.
Proof.
  intros (r & Ir & Mr).
  assert (Nk : category_keywords_of categories <> []).
  { intros E. rewrite E in Mr. discriminate. }
  destruct (category_keywords_truthy _ Nk) as [T1 T2].
  unfold filter_by_categories. rewrite T1, T2. simpl.
  destruct (category_keywords_of categories) as [|kw kws] eqn:Ek;
    [congruence|]. simpl negb. cbv iota.
  assert (If : In r (filter (matched (kw :: kws)) results)).
  { apply filter_In. split; assumption. }
  destruct (Z.leb_spec 1 (len (filter (matched (kw :: kws)) results)));
    [reflexivity|].
  destruct (filter (matched (kw :: kws)) results); [destruct If|].
  rewrite len_cons in *. pose proof (len_nonneg l). lia.
Qed.
End FilterMore.

Lemma filter_by_categories_blank_values_witness :
  Forall (fun kv : str * str => strip (snd kv) = [])
         [(lit "season", lit "  "); (lit "animal", [])]
  /\ filter_by_categories [sample_result]
       [(lit "season", lit "  "); (lit "animal", [])] = [sample_result].
Proof.
  assert (B : Forall (fun kv : str * str => strip (snd kv) = [])
                [(lit "season", lit "  "); (lit "animal", [])])
    by (repeat constructor).
  exact (conj B (filter_by_categories_blank_values [sample_result] _ B)).
Defined.

Lemma filter_by_categories_selects_witness :
  (exists r,
      In r sample_vector_results
      /\ matched (category_keywords_of [(lit "theme", lit "Star")]) r = true)
  /\ filter_by_categories sample_vector_results [(lit "theme", lit "Star")]
     = filter (matched (category_keywords_of [(lit "theme", lit "Star")]))
         sample_vector_results.
Proof.
  assert (M : exists r,
             In r sample_vector_results
             /\ matched (category_keywords_of [(lit "theme", lit "Star")]) r
                = true).
  { eexists. split; [right; left; reflexivity|]. vm_compute. reflexivity. }
  exact (conj M (filter_by_categories_selects sample_vector_results _ M)).
Defined.

(** * More on score fusion *)

Section FusionMore.
Context `{Unicode}.

Lemma fused_indices (c : dict Z result) (f : Z -> Q) :
  fused c f -> map index (dict_values c) = dict_keys c.
Proof.
  intros Hf. unfold dict_values, dict_keys. rewrite map_map.
  apply map_ext_in. intros [k e] I. simpl.
  pose proof (In_dict_get Z.eqb Z.eqb_eq c k e (proj1 Hf) I) as G.
  now destruct (fused_get c f k e Hf G).
Qed.

Lemma NoDup_prefix {A : Type} (l : list A) (k : Z) :
  NoDup l -> NoDup (py_slice_to l k).
Proof.
  destruct (py_slice_to_prefix l k) as (rest & E). intros N.
  rewrite E in N. now apply NoDup_app_remove_r in N.
Qed.

Lemma py_slice_to_map {A B : Type} (f : A -> B) (l : list A) (k : Z) :
  map f (py_slice_to l k) = py_slice_to (map f l) k.
Proof.
  unfold py_slice_to. rewrite length_map.
  destruct (0 <=? k); now rewrite firstn_map.
Qed.

(** The records fusion returns name pairwise different documents. *)
Lemma combine_results_indices (v k : list result) (top_k : Z)
    (out : list result) :
  _combine_results v k top_k = Ok out -> NoDup (map index out).
Proof.
  unfold _combine_results. intros E. inv_bind E. injection E as <-.
  pose proof (combined_dict_fused v k a Ha) as Hf.
  rewrite py_slice_to_map. apply NoDup_prefix.
  apply (Permutation_NoDup (l := map index (dict_values a))).
  - apply Permutation_map. symmetry. apply sorted_perm.
  - rewrite (fused_indices a _ Hf). apply Hf.
Qed.

(** X12: fusion returns at most [top_k] records, in descending order of
    fused score, every one with a fused score, and no document twice. *)
Theorem combine_results_ranked (v k : list result) (top_k : Z)
    (out : list result) :
  0 <= top_k ->
  _combine_results v k top_k = Ok out ->
  len out <= top_k
  /\ StronglySorted
       (fun a b => (get_combined_score b <= get_combined_score a)%Q) out
  /\ Forall (fun r => combined_score r <> None) out
  /\ NoDup (map index out).
Proof.
  intros Hk E. pose proof (combine_results_indices v k top_k out E) as N.
  destruct (_combine_results_Ok v k top_k out E) as (c & Ec & Hout).
  unfold _combine_results in E. rewrite Ec in E. simpl in E.
  injection E as <-.
  repeat split; try assumption.
  - now apply py_slice_to_len.
  - apply py_slice_to_sorted, sorted_sorted.
    + intros x y z L1 L2. eapply Qle_trans; eassumption.
    + intros x y L. apply Qlt_le_weak. now apply Qltb_true.
    + intros x y L. now apply Qltb_false.
  - rewrite Forall_forall. intros r I. apply Hout in I.
    destruct (fused_value _ _ r (combined_dict_fused v k c Ec) I)
      as (_ & s & Es & _).
    congruence.
Qed.

(** ** When fusion raises *)

Lemma for_each_raises {S A : Type} (body : S -> A -> res S)
    (bad : A -> Prop) (e0 : exn) :
  (forall s a,
      ((exists s', body s a = Ok s') /\ ~ bad a)
      \/ (body s a = Raise e0 /\ bad a)) ->
  forall l s,
    ((exists s', for_each body l s = Ok s') <-> Forall (fun a => ~ bad a) l)
    /\ (forall e, for_each body l s = Raise e -> e = e0).
Proof.
  intros Hb. induction l as [|a l IH]; simpl; intros s.
  - split; [|discriminate]. split; [constructor|eauto].
  - destruct (Hb s a) as [[(s1 & E) Na]|[E Ba]]; rewrite E; simpl.
    + destruct (IH s1) as [I1 I2]. split; [|assumption].
      rewrite I1. split; [now constructor|].
      intros F. now inversion F.
    + split; [|congruence]. split.
      * intros (s' & D). discriminate.
      * intros F. inversion F. contradiction.
Qed.

Lemma combine_vector_cases (c : dict Z result) (r : result) :
  ((exists c', combine_vector c r = Ok c') /\ ~ (distance r == -1)%Q)
  \/ (combine_vector c r = Raise ZeroDivisionError /\ (distance r == -1)%Q).
Proof.
  unfold combine_vector, float_div.
  destruct (Qeq_bool (distance r + 1) 0) eqn:E; simpl.
  - right. split; [reflexivity|]. apply Qeq_bool_iff in E. lra.
  - left. split; [eauto|]. intros D.
    assert (T : Qeq_bool (distance r + 1) 0 = true).
    { apply Qeq_bool_iff. lra. }
    congruence.
Qed.

Lemma combine_keyword_cases (c : dict Z result) (r : result) :
  ((exists c', combine_keyword c r = Ok c') /\ get_keyword_score r <> -1)
  \/ (combine_keyword c r = Raise ZeroDivisionError
      /\ get_keyword_score r = -1).
Proof.
  unfold combine_keyword, int_truediv.
  destruct (Z.eqb_spec (get_keyword_score r + 1) 0); simpl.
  - right. split; [reflexivity|lia].
  - left. split; [eauto|lia].
Qed.

(** X13: fusion returns exactly when no vector result has distance -1 and
    no keyword result has keyword score -1; otherwise the division by
    [distance + 1] or [keyword_score + 1] raises [ZeroDivisionError], which
    is the only exception fusion raises. *)
Theorem combine_results_raises (v k : list result) (top_k : Z) :
  ((exists out, _combine_results v k top_k = Ok out)
   <-> Forall (fun r => ~ (distance r == -1)%Q) v
       /\ Forall (fun r => get_keyword_score r <> -1) k)
  /\ (forall e, _combine_results v k top_k = Raise e -> e = ZeroDivisionError).
Proof.
  unfold _combine_results, combined_dict.
  destruct (for_each_raises combine_vector _ _ combine_vector_cases v [])
    as [V1 V2].
  destruct (for_each combine_vector v []) as [c|e] eqn:Ev; simpl.
  - destruct (for_each_raises combine_keyword _ _ combine_keyword_cases k c)
      as [K1 K2].
    assert (Fv : Forall (fun r => ~ (distance r == -1)%Q) v)
      by (apply V1; eauto).
    destruct (for_each combine_keyword k c) as [c'|e] eqn:Ek; simpl.
    + split; [|discriminate]. split; [|eauto].
      intros _. split; [assumption|]. apply K1. eauto.
    + split.
      * split; [intros (out & D); discriminate|].
        intros [_ Fk]. apply K1 in Fk as (c' & D). discriminate.
      * intros e' [= <-]. now apply K2.
  - split.
    + split; [intros (out & D); discriminate|].
      intros [Fv _]. apply V1 in Fv as (c' & D). discriminate.
    + intros e' [= <-]. now apply V2.
Qed.

(** ** Where the returned records come from *)

Lemma find_index_notin (idx : Z) (l : list result) :
  ~ In idx (map index l) -> find_index idx l = None.
Proof.
  unfold find_index. induction l as [|r l IH]; simpl; intros N;
    [reflexivity|].
  destruct (Z.eqb_spec (index r) idx); [tauto|]. apply IH. tauto.
Qed.

Lemma find_index_app (idx : Z) (pre l : list result) :
  ~ In idx (map index pre) -> find_index idx (pre ++ l) = find_index idx l.
Proof.
  unfold find_index. induction pre as [|r pre IH]; simpl; intros N;
    [reflexivity|].
  destruct (Z.eqb_spec (index r) idx); [tauto|]. apply IH. tauto.
Qed.

Lemma find_index_head (r : result) (l : list result) :
  find_index (index r) (r :: l) = Some r.
Proof.
  unfold find_index. simpl. now rewrite Z.eqb_refl.
Qed.

(** The record of [idx] in [combined] is the first vector result of that
    document, or else its first keyword result, with a fused score. *)
Definition source (v k : list result) (idx : Z) (e : result) : Prop :=
  match find_index idx v with
  | Some rv => exists s, e = with_combined_score rv s
  | None =>
      exists rk s, find_index idx k = Some rk /\ e = with_combined_score rk s
  end.

Lemma vector_phase_source (v : list result) (post pre : list result)
    (c c' : dict Z result) :
  v = pre ++ post ->
  (forall idx, dict_get Z.eqb c idx <> None <-> In idx (map index pre)) ->
  (forall idx e, dict_get Z.eqb c idx = Some e ->
                 exists rv s, find_index idx v = Some rv
                              /\ e = with_combined_score rv s) ->
  for_each combine_vector post c = Ok c' ->
  forall idx e, dict_get Z.eqb c' idx = Some e ->
                exists rv s, find_index idx v = Some rv
                             /\ e = with_combined_score rv s.
Proof.
  revert pre c. induction post as [|r post IH]; simpl; intros pre c Ev K S E.
  - now injection E as <-.
  - inv_bind E. apply combine_vector_Ok in Ha. subst a.
    refine (IH (pre ++ [r]) _ _ _ _ E); [now rewrite <- app_assoc| |].
    + intros idx. rewrite map_app, in_app_iff. simpl.
      destruct (Z.eq_dec idx (index r)) as [->|N].
      * destruct (add_score_get_same c r
                    (1 / (distance r + 1) * weight_vector)%Q) as (s & ->).
        split; [auto|discriminate].
      * rewrite add_score_get_other by assumption. rewrite K.
        intuition congruence.
    + intros idx e G. destruct (Z.eq_dec idx (index r)) as [->|N].
      * destruct (add_score_get_same c r
                    (1 / (distance r + 1) * weight_vector)%Q) as (s & G').
        rewrite G' in G. injection G as <-.
        destruct (dict_get Z.eqb c (index r)) as [e0|] eqn:G0.
        -- destruct (S _ _ G0) as (rv & s0 & Fv & ->). exists rv, s. auto.
        -- exists r, s. split; [|reflexivity].
           rewrite Ev, find_index_app; [apply find_index_head|].
           rewrite <- K. congruence.
      * rewrite add_score_get_other in G by assumption. eauto.
Qed.

Lemma keyword_phase_source (v k : list result) (post pre : list result)
    (c c' : dict Z result) :
  k = pre ++ post ->
  (forall idx, dict_get Z.eqb c idx <> None
               <-> In idx (map index v ++ map index pre)) ->
  (forall idx e, dict_get Z.eqb c idx = Some e -> source v k idx e) ->
  for_each combine_keyword post c = Ok c' ->
  forall idx e, dict_get Z.eqb c' idx = Some e -> source v k idx e.
Proof.
  revert pre c. induction post as [|r post IH]; simpl; intros pre c Ek K S E.
  - now injection E as <-.
  - inv_bind E. apply combine_keyword_Ok in Ha. subst a.
    set (score := (inject_Z (get_keyword_score r)
                   / inject_Z (get_keyword_score r + 1) * weight_keyword)%Q)
      in *.
    refine (IH (pre ++ [r]) _ _ _ _ E); [now rewrite <- app_assoc| |].
    + intros idx. rewrite map_app, !in_app_iff. simpl.
      destruct (Z.eq_dec idx (index r)) as [->|N].
      * destruct (add_score_get_same c r score) as (s & ->).
        split; [auto|discriminate].
      * rewrite add_score_get_other by assumption. rewrite K, in_app_iff.
        intuition congruence.
    + intros idx e G. destruct (Z.eq_dec idx (index r)) as [->|N].
      * destruct (add_score_get_same c r score) as (s & G').
        rewrite G' in G. injection G as <-.
        destruct (dict_get Z.eqb c (index r)) as [e0|] eqn:G0.
        -- specialize (S _ _ G0). unfold source in *.
           destruct (find_index (index r) v) as [rv|].
           ++ destruct S as (s0 & ->). exists s. reflexivity.
           ++ destruct S as (rk & s0 & Fk & ->). exists rk, s. auto.
        -- assert (Nn : ~ In (index r) (map index v ++ map index pre)).
           { rewrite <- K. congruence. }
           rewrite in_app_iff in Nn. unfold source.
           rewrite find_index_notin by tauto.
           exists r, s. split; [|reflexivity].
           rewrite Ek, find_index_app by tauto. apply find_index_head.
      * rewrite add_score_get_other in G by assumption. eauto.
Qed.

(** X14: every record fusion returns is, up to its fused score, the first
    vector result of its document when the vector list has one, and
    otherwise the first keyword result of its document.  So a document
    found by both searches comes back with the distance of the vector
    search, and without [keyword_score] when the vector result has none. *)
Theorem combine_results_record_source (v k : list result) (top_k : Z)
    (out : list result) :
  _combine_results v k top_k = Ok out ->
  forall r, In r out -> source v k (index r) r.
Proof.
  intros E r I.
  destruct (_combine_results_Ok v k top_k out E) as (c & Ec & Hout).
  apply Hout in I.
  destruct (fused_value _ _ r (combined_dict_fused v k c Ec) I) as (G & _).
  unfold combined_dict in Ec. inv_bind Ec.
  assert (Sv : forall idx e, dict_get Z.eqb a idx = Some e ->
                             exists rv s, find_index idx v = Some rv
                                          /\ e = with_combined_score rv s).
  { apply (vector_phase_source v v [] [] a); try reflexivity; try assumption.
    - intros idx. simpl. tauto.
    - intros idx e D. discriminate. }
  apply (keyword_phase_source v k k [] a c); try reflexivity; try assumption.
  - intros idx. simpl. rewrite app_nil_r.
    rewrite (for_each_keys _ _ _ _ idx combine_vector_adds Ha). simpl. tauto.
  - intros idx e D. destruct (Sv idx e D) as (rv & s & Fv & ->).
    unfold source. rewrite Fv. eauto.
Qed.

(** ** Bounds on the fused score *)

Lemma vector_contribution_le (d : Q) :
  (0 <= d)%Q -> (vector_contribution d <= weight_vector)%Q.
Proof.
  intros Hd. unfold vector_contribution.
  assert (L : (1 / (d + 1) <= 1)%Q).
  { apply Qle_shift_div_r; lra. }
  unfold weight_vector in *. lra.
Qed.

Lemma keyword_contribution_le (ks : Z) :
  0 <= ks -> (keyword_contribution ks <= weight_keyword)%Q.
Proof.
  intros Hs. unfold keyword_contribution.
  assert (P : (0 <= inject_Z ks)%Q).
  { change 0%Q with (inject_Z 0). now rewrite <- Zle_Qle. }
  assert (L : (inject_Z ks / (inject_Z ks + 1) <= 1)%Q).
  { apply Qle_shift_div_r; lra. }
  unfold weight_keyword in *. lra.
Qed.

Lemma find_index_In (idx : Z) (l : list result) (r : result) :
  find_index idx l = Some r -> In r l.
Proof.
  unfold find_index. intros E. now apply find_some in E.
Qed.

(** X15: when each list names a document at most once, distances are not
    negative and keyword scores are not negative, every fused score lies
    between 0 and 1 (at most 0.7 from the vector search plus at most 0.3
    from the keyword search). *)
Theorem combined_score_bounds (v k : list result) (top_k : Z)
    (out : list result) :
  NoDup (map index v) -> NoDup (map index k) ->
  Forall (fun r => (0 <= distance r)%Q) v ->
  Forall (fun r => 0 <= get_keyword_score r) k ->
  _combine_results v k top_k = Ok out ->
  Forall (fun r => (0 <= get_combined_score r <= 1)%Q) out.
Proof.
  intros Nv Nk Fv Fk E. rewrite Forall_forall. intros r I.
  destruct (_combine_results_Ok v k top_k out E) as (c & Ec & Hout).
  apply Hout in I.
  destruct (fused_value _ _ r (combined_dict_fused v k c Ec) I)
    as (_ & s & Es & Ef).
  unfold get_combined_score. rewrite Es, Ef.
  rewrite (sums_applicable (index r) v k Nv Nk).
  rewrite Forall_forall in Fv, Fk. unfold applicable_sum.
  destruct (find_index (index r) v) as [rv|] eqn:Ev;
    destruct (find_index (index r) k) as [rk|] eqn:Ek;
    try (apply find_index_In in Ev; apply Fv in Ev;
         pose proof (vector_contribution_nonneg _ Ev);
         pose proof (vector_contribution_le _ Ev));
    try (apply find_index_In in Ek; apply Fk in Ek;
         pose proof (keyword_contribution_nonneg _ Ek);
         pose proof (keyword_contribution_le _ Ek));
    unfold weight_vector, weight_keyword in *; lra.
Qed.
End FusionMore.

Lemma combine_results_ranked_witness :
  0 <= 4
  /\ _combine_results sample_vector_results sample_keyword_results 4
     = Ok sample_fused_results
  /\ len sample_fused_results <= 4
  /\ StronglySorted
       (fun a b => (get_combined_score b <= get_combined_score a)%Q)
       sample_fused_results
  /\ Forall (fun r => combined_score r <> None) sample_fused_results
  /\ NoDup (map index sample_fused_results).
Proof.
  assert (K : 0 <= 4) by lia.
  assert (E : _combine_results sample_vector_results sample_keyword_results 4
              = Ok sample_fused_results) by (vm_compute; reflexivity).
  exact (conj K (conj E
           (combine_results_ranked sample_vector_results
              sample_keyword_results 4 sample_fused_results K E))).
Defined.

Lemma combine_results_record_source_witness :
  _combine_results sample_vector_results sample_keyword_results 4
  = Ok sample_fused_results
  /\ forall r,
       In r sample_fused_results ->
       source sample_vector_results sample_keyword_results (index r) r.
Proof.
  assert (E : _combine_results sample_vector_results sample_keyword_results 4
              = Ok sample_fused_results) by (vm_compute; reflexivity).
  exact (conj E
           (combine_results_record_source sample_vector_results
              sample_keyword_results 4 sample_fused_results E)).
Defined.

Lemma combined_score_bounds_witness :
  NoDup (map index sample_vector_results)
  /\ NoDup (map index sample_keyword_results)
  /\ Forall (fun r => (0 <= distance r)%Q) sample_vector_results
  /\ Forall (fun r => 0 <= get_keyword_score r) sample_keyword_results
  /\ _combine_results sample_vector_results sample_keyword_results 4
     = Ok sample_fused_results
  /\ Forall (fun r => (0 <= get_combined_score r <= 1)%Q)
       sample_fused_results.
Proof.
  assert (Nv : NoDup (map index sample_vector_results)).
  { simpl. repeat constructor; simpl; intuition discriminate. }
  assert (Nk : NoDup (map index sample_keyword_results)).
  { simpl. repeat constructor; simpl; intuition discriminate. }
  assert (Fv : Forall (fun r => (0 <= distance r)%Q) sample_vector_results).
  { repeat constructor; simpl; discriminate. }
  assert (Fk : Forall (fun r => 0 <= get_keyword_score r)
                 sample_keyword_results).
  { repeat constructor; simpl; discriminate. }
  assert (E : _combine_results sample_vector_results sample_keyword_results 4
              = Ok sample_fused_results) by (vm_compute; reflexivity).
  exact (conj Nv (conj Nk (conj Fv (conj Fk (conj E
           (combined_score_bounds sample_vector_results
              sample_keyword_results 4 sample_fused_results
              Nv Nk Fv Fk E)))))).
Defined.

(** * More on the retrieval pipeline *)

Section RetrieveMore.
Context `{Unicode}.

Lemma sorted_of_sorted {A : Type} (lt : A -> A -> bool) (l : list A) :
  StronglySorted (fun a b => lt b a = false) l -> sorted lt l = l.
Proof.
  induction 1 as [|x l S IH F]; simpl; [reflexivity|].
  rewrite IH. destruct l as [|y l]; [reflexivity|]. simpl.
  inversion F as [|? ? Hy _]; subst. now rewrite Hy.
Qed.

Lemma NoDup_map_filter {A B : Type} (f : A -> B) (g : A -> bool)
    (l : list A) :
  NoDup (map f l) -> NoDup (map f (filter g l)).
Proof.
  induction l as [|a l IH]; simpl; intros N; [constructor|].
  inversion N as [|? ? Na N']; subst.
  destruct (g a); simpl; [|auto].
  constructor; [|auto]. intros I. apply Na.
  apply in_map_iff in I as (x & E & I). apply filter_In in I as [I _].
  rewrite <- E. now apply in_map.
Qed.

Lemma filter_by_categories_distinct (results : list result)
    (categories : dict str str) :
  NoDup (map index results) ->
  NoDup (map index (filter_by_categories results categories)).
Proof.
  intros N.
  destruct (filter_by_categories_cases results categories) as [->|[-> _]];
    [assumption|now apply NoDup_map_filter].
Qed.

(** X16: a hybrid retrieval in which fusion ran never returns the same
    document twice, whatever the index search returned. *)
Theorem retrieve_hybrid_distinct (self : RetrieverAgent) (search_query : str)
    (top_k : Z) (categories : option (dict str str))
    (final_results : list result) :
  truthy (_extract_keywords search_query) = true ->
  retrieve self search_query top_k categories true = Ok final_results ->
  NoDup (map index final_results).
Proof.
  intros Hk E. unfold retrieve in E. rewrite Hk in E.
  inv_bind E. inv_bind E. inv_bind E. inv_bind Ha1. injection E as <-.
  apply combine_results_indices in Ha1.
  rewrite py_slice_to_map. apply NoDup_prefix.
  eapply Permutation_NoDup;
    [apply Permutation_map; symmetry; apply sorted_perm|].
  destruct categories as [[|kv cats]|]; try assumption.
  now apply filter_by_categories_distinct.
Qed.

(** X18: without hybrid search and without categories, when the index
    search returns its neighbours nearest first and with no negative label,
    [retrieve] returns the first [top_k] neighbours whose label is below the
    number of songs, in the order of the index search. *)
Theorem retrieve_vector_only (self : RetrieverAgent) (search_query : str)
    (top_k : Z) (query_embedding : list Q) (raw : list (Q * Z)) :
  0 <= top_k ->
  client self search_query = Ok query_embedding ->
  index_search (db self) query_embedding top_k = Ok raw ->
  Forall (fun p => 0 <= snd p) raw ->
  StronglySorted (fun a b => (fst a <= fst b)%Q) raw ->
  exists final_results,
    retrieve self search_query top_k None false = Ok final_results
    /\ map (fun r => (distance r, index r)) final_results
       = firstn (Z.to_nat top_k)
           (filter (fun p => snd p <? song_count (metadata (db self))) raw).
Proof.
  intros Hk Ec Es F S. unfold retrieve, search_similar.
  rewrite Ec. simpl. rewrite Es. simpl.
  destruct (search_similar_loop_shape (metadata (db self)) raw F)
    as (vr & -> & M).
  simpl. eexists. split; [reflexivity|].
  assert (Sv : StronglySorted
                 (fun a b => Qltb (distance b) (distance a) = false) vr).
  { apply (filter_sorted _ (fun p => snd p <? song_count (metadata (db self))))
      in S.
    rewrite <- M in S. apply (proj1 (StronglySorted_map _ _ _)) in S.
    simpl in S.
    revert S. apply StronglySorted_impl_In. intros a b _ _ L.
    unfold Qltb. apply negb_false_iff. now apply Qle_bool_iff. }
  rewrite (sorted_of_sorted _ vr Sv).
  rewrite py_slice_to_firstn by assumption.
  now rewrite <- firstn_map, M.
Qed.

(** X19: for [top_k >= 1], when the vector search finds at least one
    candidate, [retrieve] returns at least one record: neither fusion nor
    the category filter can empty the answer. *)
Theorem retrieve_nonempty (self : RetrieverAgent) (search_query : str)
    (top_k : Z) (categories : option (dict str str)) (use_hybrid : bool)
    (query_embedding : list Q) (vector_results final_results : list result) :
  1 <= top_k ->
  client self search_query = Ok query_embedding ->
  search_similar (db self) query_embedding
    (if use_hybrid then top_k * 3 else top_k) = Ok vector_results ->
  vector_results <> [] ->
  retrieve self search_query top_k categories use_hybrid = Ok final_results ->
  final_results <> [].
Proof.
  intros Hk Ec Ev Nv E. unfold retrieve in E.
  rewrite Ec in E. simpl in E. rewrite Ev in E. simpl in E.
  inv_bind E. injection E as <-.
  assert (Na : a <> []).
  { destruct use_hybrid; [|now injection Ha as <-].
    destruct (truthy (_extract_keywords search_query));
      [|now injection Ha as <-].
    inv_bind Ha. unfold _combine_results in Ha. inv_bind Ha.
    injection Ha as <-.
    destruct vector_results as [|r vr]; [congruence|].
    assert (G : dict_get Z.eqb a1 (index r) <> None).
    { apply (combined_dict_keys _ _ _ _ Ha1). simpl. now left. }
    intros E0. apply (f_equal (@length result)) in E0.
    rewrite py_slice_to_firstn, length_firstn, sorted_length in E0 by lia.
    unfold dict_values in E0. rewrite length_map in E0.
    destruct a1; [now apply G|]. simpl in E0. lia. }
  assert (Nf : match categories with
               | Some ((_ :: _) as cats) => filter_by_categories a cats
               | _ => a
               end <> []).
  { destruct categories as [[|kv cats]|]; try assumption.
    destruct (filter_by_categories_cases a (kv :: cats)) as [->|[-> N]];
      assumption. }
  intros E0. apply (f_equal (@length result)) in E0.
  rewrite py_slice_to_firstn, length_firstn, sorted_length in E0 by lia.
  destruct (match categories with
            | Some ((_ :: _) as cats) => filter_by_categories a cats
            | _ => a
            end); [now apply Nf|]. simpl in E0. lia.
Qed.
End RetrieveMore.

Lemma retrieve_hybrid_distinct_witness :
  truthy (_extract_keywords (lit "star")) = true
  /\ retrieve six_agent (lit "star") 2 None true = Ok six_star_result
  /\ NoDup (map index six_star_result).
Proof.
  assert (K : truthy (_extract_keywords (lit "star")) = true)
    by (vm_compute; reflexivity).
  assert (E : retrieve six_agent (lit "star") 2 None true = Ok six_star_result)
    by (vm_compute; reflexivity).
  exact (conj K (conj E
           (retrieve_hybrid_distinct six_agent (lit "star") 2 None
              six_star_result K E))).
Defined.

Lemma retrieve_index_bounds_witness :
  retrieve six_agent (lit "star") 2 None true = Ok six_star_result
  /\ Forall (fun r => index r < song_count six_songs) six_star_result
  /\ ((forall e n raw, six_search e n = Ok raw ->
                       Forall (fun p => 0 <= snd p) raw)
      -> Forall (fun r => 0 <= index r) six_star_result).
Proof.
  assert (E : retrieve six_agent (lit "star") 2 None true = Ok six_star_result)
    by (vm_compute; reflexivity).
  exact (conj E
           (retrieve_index_bounds six_songs six_search (fun _ => Ok [])
              (lit "star") 2 None true six_star_result E)).
Defined.

Lemma retrieve_vector_only_witness :
  0 <= 2
  /\ client six_agent (lit "star") = Ok []
  /\ index_search (db six_agent) [] 2 = Ok [((1 # 10)%Q, 0); ((2 # 10)%Q, 1)]
  /\ Forall (fun p : Q * Z => 0 <= snd p) [((1 # 10)%Q, 0); ((2 # 10)%Q, 1)]
  /\ StronglySorted (fun a b : Q * Z => (fst a <= fst b)%Q)
       [((1 # 10)%Q, 0); ((2 # 10)%Q, 1)]
  /\ exists final_results,
       retrieve six_agent (lit "star") 2 None false = Ok final_results
       /\ map (fun r => (distance r, index r)) final_results
          = firstn (Z.to_nat 2)
              (filter (fun p => snd p <? song_count (metadata (db six_agent)))
                 [((1 # 10)%Q, 0); ((2 # 10)%Q, 1)]).
Proof.
  assert (K : 0 <= 2) by lia.
  assert (C : client six_agent (lit "star") = Ok []) by reflexivity.
  assert (E : index_search (db six_agent) [] 2
              = Ok [((1 # 10)%Q, 0); ((2 # 10)%Q, 1)]) by reflexivity.
  assert (F : Forall (fun p : Q * Z => 0 <= snd p)
                [((1 # 10)%Q, 0); ((2 # 10)%Q, 1)])
    by (repeat constructor; simpl; lia).
  assert (S : StronglySorted (fun a b : Q * Z => (fst a <= fst b)%Q)
                [((1 # 10)%Q, 0); ((2 # 10)%Q, 1)])
    by (repeat constructor; simpl; discriminate).
  exact (conj K (conj C (conj E (conj F (conj S
           (retrieve_vector_only six_agent (lit "star") 2 [] _
              K C E F S)))))).
Defined.

Lemma retrieve_nonempty_witness :
  1 <= 2
  /\ client six_agent (lit "star") = Ok []
  /\ search_similar (db six_agent) [] (2 * 3) = Ok six_vector_results
  /\ six_vector_results <> []
  /\ retrieve six_agent (lit "star") 2 None true = Ok six_star_result
  /\ six_star_result <> [].
Proof.
  assert (K : 1 <= 2) by lia.
  assert (C : client six_agent (lit "star") = Ok []) by reflexivity.
  assert (V : search_similar (db six_agent) [] (2 * 3) = Ok six_vector_results)
    by (vm_compute; reflexivity).
  assert (N : six_vector_results <> []) by discriminate.
  assert (E : retrieve six_agent (lit "star") 2 None true = Ok six_star_result)
    by (vm_compute; reflexivity).
  exact (conj K (conj C (conj V (conj N (conj E
           (retrieve_nonempty six_agent (lit "star") 2 None true []
              six_vector_results six_star_result K C V N E)))))).
Defined.
